(** * The cubejs service of mlcraft: authorization and driver configuration

    A shallow embedding of [services/cubejs/index.js]: the auth gate
    ([setupAuthInfo]), the driver factory ([driverFactory]) and the query
    access filter ([queryRewrite]), together with the fragment of JavaScript
    they are written in.

    JavaScript values are an inductive type; objects are finite maps from
    property names to values ([gmap string value]), the configuration object
    of the factory with its prototype; a [throw] is the [Throw]
    completion of a small error monad; an [async] function is modelled by the
    completion of the promise it returns (a rejected promise is a [Throw] at
    the caller's [await]).  Everything outside the file (the JWT library, the
    credential store, the driver packages, [JSON.parse]) is a field of the
    [World] record. *)

From Stdlib Require Import ZArith Ascii DecimalString.
From stdpp Require Import gmap strings list fin_maps.

Set Warnings "-register-all".
Local Open Scope Z_scope.

(** ** JavaScript values *)

(** Numbers: the integral doubles and NaN; fractions and infinities are
    left out of the model.  [Int z] stands for the double of value [z].
    Such a number is printed in plain decimal digits for [|z| < 10^21], and
    [toString] below is the language's conversion there; from [10^21] on
    JavaScript prints an exponent form ([1e+21]), which the model does not
    produce. *)
Inductive number :=
| Int (z : Z)
| NaN.

(** [VErr name message] is an [Error] object of the given class; [VFun id] is
    a function or class, known by name only; [VObj] is a plain object with its
    own enumerable properties (inherited members of [Object.prototype] are not
    part of it). *)
Inductive value :=
| VUndef
| VNull
| VBool (b : bool)
| VNum (n : number)
| VStr (s : string)
| VArr (xs : list value)
| VObj (m : gmap string value)
| VErr (name message : string)
| VFun (id : string).

(** The outcome of evaluating an expression or awaiting a promise. *)
Inductive completion (A : Type) :=
| Normal (a : A)
| Throw (e : value).
Arguments Normal {A} a.
Arguments Throw {A} e.

#[global] Instance completion_ret : MRet completion := @Normal.
#[global] Instance completion_bind : MBind completion := λ A B f c,
  match c with
  | Normal a => f a
  | Throw e => Throw e
  end.

(** The decimal digits of an integer, with its sign. *)
Definition dec (z : Z) : string := NilZero.string_of_int (Z.to_int z).

Definition truthy (v : value) : bool :=
  match v with
  | VUndef | VNull => false
  | VBool b => b
  | VNum (Int z) => negb (z =? 0)
  | VNum NaN => false
  | VStr s => negb (String.eqb s "")
  | VArr _ | VObj _ | VErr _ _ | VFun _ => true
  end.

Definition nullish (v : value) : bool :=
  match v with
  | VUndef | VNull => true
  | _ => false
  end.

Definition typeof (v : value) : string :=
  match v with
  | VUndef => "undefined"
  | VNull | VArr _ | VObj _ | VErr _ _ => "object"
  | VBool _ => "boolean"
  | VNum _ => "number"
  | VStr _ => "string"
  | VFun _ => "function"
  end.

(** [a || b] on already evaluated operands. *)
Definition or_else (a b : value) : value := if truthy a then a else b.

(** [Array.prototype.join] over already converted elements. *)
Fixpoint concat_sep (sep : string) (parts : list string) : string :=
  match parts with
  | [] => ""
  | [p] => p
  | p :: rest => p +:+ sep +:+ concat_sep sep rest
  end.

(** ToString.  An element of an array that is [undefined] or [null] joins as
    the empty string; the text of a function is not modelled beyond its
    name. *)
Fixpoint toString (v : value) : string :=
  match v with
  | VUndef => "undefined"
  | VNull => "null"
  | VBool true => "true"
  | VBool false => "false"
  | VNum (Int z) => dec z
  | VNum NaN => "NaN"
  | VStr s => s
  | VArr xs =>
      concat_sep ","
        ((fix elts (l : list value) : list string :=
            match l with
            | [] => []
            | x :: l' => (if nullish x then "" else toString x) :: elts l'
            end) xs)
  | VObj _ => "[object Object]"
  | VErr name message =>
      if String.eqb name "" then message
      else if String.eqb message "" then name
      else name +:+ ": " +:+ message
  | VFun id => "function " +:+ id +:+ "() { [native code] }"
  end.

Definition join (sep : string) (xs : list value) : string :=
  concat_sep sep (map (λ x, if nullish x then "" else toString x) xs).

(** [new Error(x)], [new TypeError(..)], [new ReferenceError(..)]. *)
Definition new_Error (x : value) : value :=
  VErr "Error" (match x with VUndef => "" | _ => toString x end).

Definition TypeError (message : string) : value := VErr "TypeError" message.
Definition ReferenceError (message : string) : value := VErr "ReferenceError" message.

(** The message texts of errors raised by the engine itself follow V8; only
    their class is part of the language. *)
Definition not_readable (base : value) (key : string) : value :=
  TypeError ("Cannot read properties of " +:+ toString base +:+ " (reading '" +:+ key +:+ "')").
Definition not_iterable : value := TypeError "object is not iterable".
Definition not_a_function (what : string) : value := TypeError (what +:+ " is not a function").
Definition not_a_constructor (what : string) : value := TypeError (what +:+ " is not a constructor").
Definition not_convertible : value := TypeError "Cannot convert undefined or null to object".

(** ** Properties *)

Fixpoint chars (s : string) : list value :=
  match s with
  | String a s' => VStr (String a EmptyString) :: chars s'
  | EmptyString => []
  end.

(** The array index a canonical numeric key denotes, below [n]. *)
Definition index_of_key (n : nat) (key : string) : option nat :=
  List.find (λ i, String.eqb (dec (Z.of_nat i)) key) (seq 0 n).

Definition indexed (xs : list value) (key : string) : value :=
  if String.eqb key "length" then VNum (Int (Z.of_nat (length xs)))
  else match index_of_key (length xs) key with
       | Some i => default VUndef (xs !! i)
       | None => VUndef
       end.

(** [base?.key]: the own property, [undefined] when there is none or when the
    base is [undefined] or [null]. *)
Definition own (base : value) (key : string) : value :=
  match base with
  | VObj m => default VUndef (m !! key)
  | VArr xs => indexed xs key
  | VStr s => indexed (chars s) key
  | VErr name message =>
      if String.eqb key "message" then VStr message
      else if String.eqb key "name" then VStr name
      else VUndef
  | _ => VUndef
  end.

(** [base.key], and the destructuring [const { key } = base]. *)
Definition member (base : value) (key : string) : completion value :=
  if nullish base then Throw (not_readable base key) else Normal (own base key).

(** [obj[key]] for a plain object held in a variable. *)
Definition field (m : gmap string value) (key : string) : value :=
  default VUndef (m !! key).

Definition Object_keys (v : value) : completion (list string) :=
  match v with
  | VUndef | VNull => Throw not_convertible
  | VObj m => Normal (map fst (map_to_list m))
  | VArr xs => Normal (map (λ i, dec (Z.of_nat i)) (seq 0 (length xs)))
  | VStr s => Normal (map (λ i, dec (Z.of_nat i)) (seq 0 (String.length s)))
  | _ => Normal []
  end.

Definition Object_values (v : value) : completion (list value) :=
  match v with
  | VUndef | VNull => Throw not_convertible
  | VObj m => Normal (map snd (map_to_list m))
  | VArr xs => Normal xs
  | VStr s => Normal (chars s)
  | _ => Normal []
  end.

(** [{ ...v }]: the own enumerable properties of [v]. *)
Definition spread_props (v : value) : gmap string value :=
  match v with
  | VObj m => m
  | VArr xs => list_to_map (zip (map (λ i, dec (Z.of_nat i)) (seq 0 (length xs))) xs)
  | VStr s =>
      list_to_map (zip (map (λ i, dec (Z.of_nat i)) (seq 0 (String.length s))) (chars s))
  | _ => ∅
  end.

(** [[ ...v ]]: the elements [v] iterates over. *)
Definition spread_elements (v : value) : completion (list value) :=
  match v with
  | VArr xs => Normal xs
  | VStr s => Normal (chars s)
  | _ => Throw not_iterable
  end.

(** SameValueZero, the comparison of [Array.prototype.includes].  Objects are
    compared by identity: the two sides of every comparison in this file come
    from different allocations, hence are never the same object. *)
Definition same_value_zero (a b : value) : bool :=
  match a, b with
  | VUndef, VUndef | VNull, VNull => true
  | VBool x, VBool y => Bool.eqb x y
  | VNum (Int x), VNum (Int y) => x =? y
  | VNum NaN, VNum NaN => true
  | VStr x, VStr y => String.eqb x y
  | _, _ => false
  end.

Definition includes (xs : list value) (x : value) : bool :=
  existsb (λ y, same_value_zero y x) xs.

(** [v === "s"]. *)
Definition is_string (v : value) (s : string) : bool :=
  match v with
  | VStr t => String.eqb t s
  | _ => false
  end.

(** [String.prototype.startsWith]. *)
Definition startsWith (s p : string) : bool := String.prefix p s.

(** ** parseInt *)

Definition is_space (a : ascii) : bool :=
  let n := nat_of_ascii a in
  ((9 <=? n) && (n <=? 13) || (n =? 32))%nat.

Fixpoint skip_spaces (s : string) : string :=
  match s with
  | String a s' => if is_space a then skip_spaces s' else s
  | EmptyString => s
  end.

Definition digit_value (radix : Z) (a : ascii) : option Z :=
  let n := Z.of_nat (nat_of_ascii a) in
  let d := if (48 <=? n) && (n <=? 57) then n - 48
           else if (97 <=? n) && (n <=? 122) then n - 87
           else if (65 <=? n) && (n <=? 90) then n - 55
           else radix in
  if d <? radix then Some d else None.

(** The value of the longest prefix of digits, [None] when there is none. *)
Fixpoint leading_digits (radix : Z) (s : string) (acc : option Z) : option Z :=
  match s with
  | String a s' =>
      match digit_value radix a with
      | Some d => leading_digits radix s' (Some (radix * default 0 acc + d))
      | None => acc
      end
  | EmptyString => acc
  end.

Definition parseInt_string (s : string) : number :=
  let s := skip_spaces s in
  let '(sign, s) :=
    match s with
    | String "-" r => (-1, r)
    | String "+" r => (1, r)
    | _ => (1, s)
    end in
  let '(radix, s) :=
    match s with
    | String "0" (String "x" r) | String "0" (String "X" r) => (16, r)
    | _ => (10, s)
    end in
  match leading_digits radix s None with
  | Some n => Int (sign * n)
  | None => NaN
  end.

(** [parseInt(v)] with no radix. *)
Definition parseInt (v : value) : number := parseInt_string (toString v).

(** ** The world outside the file *)

(** What [index.js] imports or calls and does not define: the language's
    [JSON.parse] and its numeric reading of strings, the configured secret and
    [jwt.verify], the helpers of [dataSourceHelpers.js], the table
    [DriverDependencies] of server-core, the dynamic [import()] of a driver
    package and the constructors and operations of the driver classes. *)
Record World := {
  JSON_parse : string → completion value;
  StringToNumber : string → number;
  CUBEJS_SECRET : value;
  jwt_verify : value → value → completion value;
  findDataSource : value → value → completion value;
  getPermissions : value → completion value;
  buildSecurityContext : value → value;
  DriverDependencies : gmap string value;
  import_module : string → completion value;
  construct : string → value → completion unit;
  perform : string → value → string → completion value;
}.

(** ToNumber. *)
Definition toNumber (W : World) (v : value) : number :=
  match v with
  | VUndef => NaN
  | VNull => Int 0
  | VBool b => Int (if b then 1 else 0)
  | VNum n => n
  | VStr s => StringToNumber W s
  | VArr _ | VObj _ | VErr _ _ | VFun _ => StringToNumber W (toString v)
  end.

Definition num_ge (a b : number) : bool :=
  match a, b with
  | Int x, Int y => y <=? x
  | _, _ => false
  end.

Definition num_lt (a b : number) : bool :=
  match a, b with
  | Int x, Int y => x <? y
  | _, _ => false
  end.

(** [arr.reduce(f, init)] and [arr.forEach(f)] with a callback that may
    throw. *)
Fixpoint reduce {A B} (f : A → B → completion A) (init : A) (xs : list B) : completion A :=
  match xs with
  | [] => Normal init
  | x :: xs' => acc ← f init x; reduce f acc xs'
  end.

Fixpoint forEach {B} (f : B → completion unit) (xs : list B) : completion unit :=
  match xs with
  | [] => Normal tt
  | x :: xs' => _ ← f x; forEach f xs'
  end.

(** ** The auth gate (lines 34-94) *)

Record Request := {
  headers : gmap string value;
  securityContext : value;
}.

Definition pushError (req : Request) (error : value) : Request * value :=
  ({| headers := headers req; securityContext := VObj {[ "error" := error ]} |}, VNull).

Definition dquote : string := String (ascii_of_nat 34) EmptyString.

(** The result is the request after the call and the value returned. *)
Definition setupAuthInfo (W : World) (req : Request) (auth : value)
  : completion (Request * value) :=
  let cubejsAuthToken := field (headers req) "authorization" in
  let authToken := field (headers req) "x-hasura-authorization" in
  match jwt_verify W cubejsAuthToken (CUBEJS_SECRET W) with
  | Throw err =>
      message ← member err "message";
      Normal (pushError req message)
  | Normal jwtDecoded =>
      let decoded := or_else jwtDecoded (VObj ∅) in
      let dataSourceId := own decoded "dataSourceId" in
      let userId := own decoded "userId" in
      if negb (truthy dataSourceId) then
        Normal (pushError req (VStr "Provide dataSourceId"))
      else
        dataSource ← findDataSource W dataSourceId authToken;
        permissions ← getPermissions W userId;
        if negb (truthy (own dataSource "id")) then
          Normal (pushError req
            (VStr ("Source " +:+ dquote +:+ toString dataSourceId +:+ dquote +:+ " not found")))
        else
          let context := buildSecurityContext W dataSource in
          Normal
            ({| headers := headers req;
                securityContext :=
                  VObj (spread_props context ∪ (spread_props permissions ∪
                    (<[ "authToken" := authToken ]>
                      (<[ "userId" := userId ]> {[ "dataSourceId" := dataSourceId ]}))))
             |}, VUndef)
  end.

(** ** The driver factory (lines 39-51 and 96-271) *)

Definition addHttpPrefix (host : value) : completion value :=
  match host with
  | VStr h =>
      if negb (startsWith h "http://") && negb (startsWith h "https://")
      then Normal (VStr ("http://" +:+ h))
      else Normal host
  | VUndef | VNull => Throw (not_readable host "startsWith")
  | _ => Throw (not_a_function "host.startsWith")
  end.

Definition makeUrl (raw_host port : value) : completion value :=
  host ← addHttpPrefix raw_host;
  let url := join ":" [host; port] in
  Normal (VStr url).

Definition connParamValid (W : World) (port : value) : completion unit :=
  let portValidation :=
    num_ge (toNumber W port) (Int 0) && num_lt (toNumber W port) (Int 65536) in
  if negb portValidation then
    Throw (new_Error
      (VStr ("Port should be >= 0 and < 65536. Received " +:+ toString port +:+ ".")))
  else Normal tt.

(** A driver handle: the object [driverError] builds, whose two operations
    throw, or an instance [new class(dbConfig)] of a driver class. *)
Inductive DriverHandle :=
| ErrorDriver (err : value)
| Driver (class : string) (dbConfig : value).

Definition throwError (err : value) : completion value :=
  Throw (new_Error (or_else (own err "message") err)).

Definition driverError (err : value) : DriverHandle := ErrorDriver err.

Definition tablesSchema (W : World) (h : DriverHandle) : completion value :=
  match h with
  | ErrorDriver err => throwError err
  | Driver class dbConfig => perform W class dbConfig "tablesSchema"
  end.

Definition testConnection (W : World) (h : DriverHandle) : completion value :=
  match h with
  | ErrorDriver err => throwError err
  | Driver class dbConfig => perform W class dbConfig "testConnection"
  end.

(** Control inside [driverFactory]: go on with a value, [return] a handle
    early, or raise. *)
Inductive flow (A : Type) :=
| Go (a : A)
| Return (h : DriverHandle)
| Raise (e : value).
Arguments Go {A} a.
Arguments Return {A} h.
Arguments Raise {A} e.

#[global] Instance flow_ret : MRet flow := @Go.
#[global] Instance flow_bind : MBind flow := λ A B f c,
  match c with
  | Go a => f a
  | Return h => Return h
  | Raise e => Raise e
  end.

Definition lift {A} (c : completion A) : flow A :=
  match c with
  | Normal a => Go a
  | Throw e => Raise e
  end.

(** [try { body } catch (err) { return driverError(err); }] *)
Definition catching {A} (body : flow A) : flow A :=
  match body with
  | Raise err => Return (driverError err)
  | other => other
  end.

Definition finish (body : flow DriverHandle) : completion DriverHandle :=
  match body with
  | Go h | Return h => Normal h
  | Raise e => Throw e
  end.

Definition message_object (message : string) : value :=
  VObj {[ "message" := VStr message ]}.

(** Lines 119-123. *)
Definition checkCredentials (dbParams : value) : flow unit :=
  missing ← lift (if negb (truthy dbParams) then Normal true
                  else keys ← Object_keys dbParams;
                       Normal (bool_decide (length keys = 0%nat)));
  if (missing : bool) then
    Return (driverError (message_object "Datasource credentials not found or incorrect"))
  else Go tt.

(** Lines 125-139. *)
Definition parseDbParams (W : World) (dbParams : value) : flow value :=
  if String.eqb (typeof dbParams) "string" then
    catching (lift (JSON_parse W (toString dbParams)))
  else if String.eqb (typeof dbParams) "object" then Go dbParams
  else Return (driverError
         (message_object "Invalid dbParams type: expected a string or an object")).

(** *** The prototype of [dbConfig]

    Line 144 builds [dbConfig] by the assignments [res[key] = value] on an
    empty object.  For the name [__proto__] such an assignment creates no
    field: it runs the setter inherited from [Object.prototype], which makes
    an object value the prototype of [res], clears the prototype for [null]
    and ignores any other value.  [dbConfig] is thus the one object of the
    file that can have a prototype of its own.  In the map that stands for
    it the entry [__proto__] records that prototype; every other entry is an
    own field.  (An object read by [JSON.parse] has [__proto__] as an
    ordinary own property, as every [VObj] has.)  The properties of a
    prototype are taken to be plain data, writable as those of every object
    read from JSON: assigning to a name the prototype also has creates an own
    field. *)
Definition object_like (v : value) : bool :=
  match v with
  | VArr _ | VObj _ | VErr _ _ | VFun _ => true
  | _ => false
  end.

(** [res[key] = v]. *)
Definition assign (res : gmap string value) (key : string) (v : value)
  : gmap string value :=
  if String.eqb key "__proto__" then
    if object_like v then <[ key := v ]> res
    else match v with
         | VNull => delete key res
         | _ => res
         end
  else <[ key := v ]> res.

(** [dbConfig.key]: the own field, or else the property the prototype has
    under that name. *)
Definition read (dbConfig : gmap string value) (key : string) : value :=
  match dbConfig !! key with
  | Some v => v
  | None =>
      match dbConfig !! "__proto__" with
      | Some prototype => own prototype key
      | None => VUndef
      end
  end.

(** [{ ...dbConfig }]: the own fields; a spread does not copy the
    prototype. *)
Definition own_fields (dbConfig : gmap string value) : gmap string value :=
  delete "__proto__" dbConfig.

(** Lines 141-144: the keys with a truthy value, assigned one by one on a
    fresh object. *)
Definition cleanDbParams (parsedDbParams : value) : completion (gmap string value) :=
  keys ← Object_keys (or_else parsedDbParams (VObj ∅));
  Normal (foldl (λ res key, assign res key (own parsedDbParams key)) ∅
            (List.filter (λ key, truthy (own parsedDbParams key)) keys)).

(** What the cleaning makes of a plain object: the entries with a truthy
    value, that of [__proto__] only when it is an object. *)
Definition cleaned (params : gmap string value) : gmap string value :=
  filter (λ kv, truthy kv.2 = true ∧ (kv.1 = "__proto__" → object_like kv.2 = true)) params.

(** Lines 146-156. *)
Definition validate (W : World) (dbConfig : gmap string value) (securityError : value)
  : flow unit :=
  catching (lift (
    _ ← (if truthy (read dbConfig "port") then connParamValid W (read dbConfig "port")
         else Normal tt);
    if truthy securityError then Throw securityError else Normal tt)).

(** The module neither declares nor imports [MSSQL_DEFAULT_PORT], and the
    global object has no such property: evaluating the identifier raises. *)
Definition MSSQL_DEFAULT_PORT : completion value :=
  Throw (ReferenceError "MSSQL_DEFAULT_PORT is not defined").

(** The body of [case 'snowflake':], lines 222-229. *)
Definition snowflake_case (dbConfig : gmap string value) : gmap string value :=
  let account := join "-" [read dbConfig "orgId"; read dbConfig "accountId"] in
  <[ "account" := VStr account ]> (own_fields dbConfig).

(** The body of [case 'elasticsearch':], lines 202-221, up to the next
    [case] label. *)
Definition elasticsearch_case (dbConfig : gmap string value) : gmap string value :=
  let dbConfig :=
    <[ "auth" := VObj (<[ "password" := read dbConfig "password" ]>
                         {[ "username" := read dbConfig "username" ]}) ]>
      (<[ "url" := read dbConfig "url" ]>
        (<[ "queryFormat" := VStr "json" ]> (own_fields dbConfig))) in
  if truthy (read dbConfig "apiId") && truthy (read dbConfig "apiKey") then
    <[ "auth" := VObj (<[ "apiKey" := VObj (<[ "api_key" := read dbConfig "apiKey" ]>
                                               {[ "id" := read dbConfig "apiId" ]}) ]>
                         (spread_props (read dbConfig "auth"))) ]> dbConfig
  else dbConfig.

(** The [switch (dbType)] of lines 158-246.  The elasticsearch case has no
    [break]: control runs on into the snowflake case.  The cases that build
    the configuration anew by a spread ([bigquery], [mssql], [athena],
    [elasticsearch], [snowflake]) or by a literal ([clickhouse]) leave the
    prototype behind; those that assign a field on [dbConfig] keep it. *)
Definition deriveConfig (W : World) (dbType : value) (dbConfig : gmap string value)
  : flow (gmap string value) :=
  if is_string dbType "bigquery" then
    keyFile ← catching (lift (JSON_parse W (toString (read dbConfig "keyFile"))));
    Go (<[ "credentials" := VObj (spread_props keyFile) ]> (own_fields dbConfig))
  else if is_string dbType "mssql" then
    port ← lift (let parsed := VNum (parseInt (read dbConfig "port")) in
                 if truthy parsed then Normal parsed else MSSQL_DEFAULT_PORT);
    Go (<[ "port" := port ]> (<[ "server" := read dbConfig "host" ]> (own_fields dbConfig)))
  else if is_string dbType "clickhouse" then
    let auth :=
      join ":" (List.filter truthy [read dbConfig "user"; read dbConfig "password"]) in
    Go (<[ "queryOptions" :=
             VObj {[ "database" := or_else (read dbConfig "database") (VStr "default") ]} ]>
         (<[ "protocol" := VStr (if truthy (read dbConfig "ssl") then "https:" else "http:") ]>
           (<[ "auth" := VStr auth ]>
             (<[ "port" := read dbConfig "port" ]>
               {[ "host" := read dbConfig "host" ]}))))
  else if is_string dbType "athena" then
    Go (<[ "region" := read dbConfig "awsRegion" ]>
         (<[ "S3OutputLocation" := read dbConfig "awsS3OutputLocation" ]>
           (<[ "secretAccessKey" := read dbConfig "awsSecret" ]>
             (<[ "accessKeyId" := read dbConfig "awsKey" ]> (own_fields dbConfig)))))
  else if is_string dbType "elasticsearch" then
    Go (snowflake_case (elasticsearch_case dbConfig))
  else if is_string dbType "snowflake" then
    Go (snowflake_case dbConfig)
  else if is_string dbType "druid" || is_string dbType "ksql" then
    url ← lift (makeUrl (read dbConfig "host") (read dbConfig "port"));
    Go (<[ "url" := url ]> dbConfig)
  else if is_string dbType "firebolt" then
    Go (<[ "connection" :=
             VObj (<[ "engineName" := read dbConfig "engineName" ]>
                    (<[ "password" := read dbConfig "password" ]>
                      (<[ "username" := read dbConfig "username" ]>
                        {[ "database" := read dbConfig "database" ]}))) ]> dbConfig)
  else Go dbConfig.

(** [new class(arg)]. *)
Definition new (W : World) (class : value) (what : string) (arg : value)
  : completion DriverHandle :=
  match class with
  | VFun id => _ ← construct W id arg; Normal (Driver id arg)
  | _ => Throw (not_a_constructor what)
  end.

(** Lines 248-266.  The constructor is given [dbConfig] itself: the object
    of the map, whose entry [__proto__], if any, is its prototype. *)
Definition loadDriver (W : World) (dbType : value) (dbConfig : gmap string value)
  : flow DriverHandle :=
  driverModule ← catching (
    let dbDriver := own (VObj (DriverDependencies W)) (toString dbType) in
    driverModule ← lift (import_module W (toString dbDriver));
    driverModule ← lift (if is_string dbType "druid" then member driverModule "default"
                         else Normal driverModule);
    if is_string dbType "databricks-jdbc" then
      class ← lift (member driverModule "DatabricksDriver");
      driver ← lift (new W class "driverModule.DatabricksDriver" (VObj dbConfig));
      Return driver
    else Go driverModule);
  class ← lift (member driverModule "default");
  lift (new W class "driverModule.default" (VObj dbConfig)).

(** The first five steps: the configuration the driver is to be built
    from. *)
Definition configure (W : World) (securityContext : value) : flow (gmap string value) :=
  let context := or_else securityContext (VObj ∅) in
  let dbParams := own context "dbParams" in
  let dbType := own context "dbType" in
  let securityError := own context "error" in
  _ ← checkCredentials dbParams;
  parsedDbParams ← parseDbParams W dbParams;
  dbConfig ← lift (cleanDbParams parsedDbParams);
  _ ← validate W dbConfig securityError;
  deriveConfig W dbType dbConfig.

Definition driverFactory (W : World) (securityContext : value) : completion DriverHandle :=
  finish (
    dbConfig ← configure W securityContext;
    loadDriver W (own (or_else securityContext (VObj ∅)) "dbType") dbConfig).

Definition dbType (securityContext : value) : value :=
  or_else (own securityContext "dbType") (VStr "none").

(** ** The query access filter (lines 285-318) *)

Definition getColumnsArray (cube : value) : completion (list value) :=
  dimensions ← spread_elements (or_else (own cube "dimensions") (VArr []));
  measures ← spread_elements (or_else (own cube "measures") (VArr []));
  segments ← spread_elements (or_else (own cube "segments") (VArr []));
  Normal (dimensions ++ measures ++ segments).

(** Line 294: the permissions in force, the context's own when it carries a
    config, those the store holds for the user otherwise. *)
Definition permissionsOf (W : World) (securityContext userId : value) : completion value :=
  if truthy (own securityContext "config") then Normal securityContext
  else getPermissions W userId.

(** The [cubes] entry of the datasource [dataSourceId] in [config]
    (line 295). *)
Definition accessDatasourceOf (config dataSourceId : value) : value :=
  own (own (own config "datasources") (toString dataSourceId)) "cubes".

(** Lines 306-309: the columns of all the cubes of the datasource. *)
Definition accessNamesOf (accessDatasource : value) : completion (list value) :=
  cubes ← Object_values accessDatasource;
  reduce (λ acc cube, columns ← getColumnsArray cube; Normal (acc ++ columns)) [] cubes.

(** The error of line 313. *)
Definition denied (cn : value) : value :=
  new_Error (VStr ("No access to " +:+ toString cn +:+ " cube!")).

(** The second argument of the source is [{ securityContext }], already taken
    apart here. *)
Definition queryRewrite (W : World) (query securityContext : value) : completion value :=
  dataSourceId ← member securityContext "dataSourceId";
  userId ← member securityContext "userId";
  permissions ← permissionsOf W securityContext userId;
  config ← member permissions "config";
  role ← member permissions "role";
  let accessDatasource := accessDatasourceOf config dataSourceId in
  if includes [VStr "owner"; VStr "admin"] role || negb (truthy config) then
    Normal query
  else if negb (truthy accessDatasource) then
    Throw (new_Error (VStr "No access to datasource!"))
  else
    queryNames ← getColumnsArray query;
    accessNames ← accessNamesOf accessDatasource;
    _ ← forEach (λ cn, if negb (includes accessNames cn) then Throw (denied cn)
                       else Normal tt) queryNames;
    Normal query.

(** The roles the filter exempts, and the columns a datasource's cubes
    grant: those of [cube.dimensions], [cube.measures] and [cube.segments] of
    some cube of the datasource. *)
Definition elevated (role : value) : Prop :=
  role = VStr "owner" ∨ role = VStr "admin".

Definition granted (accessDatasource cn : value) : Prop :=
  ∃ cubes cube columns,
    Object_values accessDatasource = Normal cubes ∧ cube ∈ cubes ∧
    getColumnsArray cube = Normal columns ∧ includes columns cn = true.

(** The type tags the [switch] has a case for, and what it is for the driver
    package of a type to load: the type is not the one built inside the [try]
    and [import()] resolves to a module. *)
Definition derived_types : list string :=
  ["bigquery"; "mssql"; "clickhouse"; "athena"; "elasticsearch"; "snowflake";
   "druid"; "ksql"; "firebolt"].




(** ** A sample world and sample inputs

    One concrete environment, used where a statement is to be evaluated: a
    store with a single restricted user and a single datasource, and the
    driver packages of three database types. *)
Module Sample.

Definition obj (l : list (string * value)) : value := VObj (list_to_map l).

Definition restricted : value :=
  obj [("role", VStr "member");
       ("config", obj [("datasources",
          obj [("ds1", obj [("cubes",
            obj [("Orders", obj [("dimensions", VArr [VStr "a"]);
                                 ("measures", VArr [VStr "b"])])])])])])].

Definition package (class : string) : value := obj [("default", VFun class)].

Definition world : World := {|
  JSON_parse s :=
    if String.eqb s "{}" then Normal (VObj ∅)
    else Throw (VErr "SyntaxError" "Unexpected token in JSON");
  StringToNumber s :=
    if String.eqb s "" then Int 0
    else if String.eqb (toString (VNum (parseInt_string s))) s then parseInt_string s
    else NaN;
  CUBEJS_SECRET := VStr "secret";
  jwt_verify token secret :=
    if is_string token "good" then Normal (obj [("dataSourceId", VStr "ds1"); ("userId", VStr "u1")])
    else Throw (VErr "JsonWebTokenError" "invalid signature");
  findDataSource dataSourceId authToken :=
    Normal (if is_string dataSourceId "ds1" then obj [("id", VStr "ds1")] else VNull);
  getPermissions userId := Normal restricted;
  buildSecurityContext dataSource :=
    obj [("dbType", VStr "postgres"); ("dbParams", obj [("host", VStr "h")])];
  DriverDependencies :=
    list_to_map [("postgres", VStr "@cubejs-backend/postgres-driver");
                 ("clickhouse", VStr "@cubejs-backend/clickhouse-driver");
                 ("druid", VStr "@cubejs-backend/druid-driver")];
  import_module specifier :=
    if String.eqb specifier "@cubejs-backend/postgres-driver" then Normal (package "PostgresDriver")
    else if String.eqb specifier "@cubejs-backend/clickhouse-driver" then Normal (package "ClickHouseDriver")
    else if String.eqb specifier "@cubejs-backend/druid-driver" then Normal (obj [("default", package "DruidDriver")])
    else Throw (VErr "Error" ("Cannot find package '" +:+ specifier +:+ "'"));
  construct class dbConfig := Normal tt;
  perform class dbConfig operation := Normal (VArr []);
|}.

Definition context (type : string) (dbParams : list (string * value)) : value :=
  obj [("dbType", VStr type); ("dbParams", obj dbParams)].

(** The clickhouse scenario and the configuration expected for it. *)
Definition clickhouse_context : value :=
  context "clickhouse"
    [("user", VStr "u"); ("password", VStr "p"); ("host", VStr "h");
     ("port", VNum (Int 9000)); ("ssl", VBool true)].

Definition clickhouse_config : gmap string value :=
  list_to_map
    [("host", VStr "h"); ("port", VNum (Int 9000)); ("auth", VStr "u:p");
     ("protocol", VStr "https:"); ("queryOptions", obj [("database", VStr "default")])].

(** A clickhouse datasource with no user, no password and the port 0, and
    the configuration the factory derives for it. *)
Definition bare_clickhouse_params : value :=
  obj [("host", VStr "h"); ("port", VNum (Int 0))].

Definition bare_clickhouse_context : value :=
  obj [("dbType", VStr "clickhouse"); ("dbParams", bare_clickhouse_params)].

Definition bare_clickhouse_config : gmap string value :=
  list_to_map
    [("host", VStr "h"); ("port", VUndef); ("auth", VStr "");
     ("protocol", VStr "http:"); ("queryOptions", obj [("database", VStr "default")])].

(** An elasticsearch datasource with basic authentication, and the
    configuration the factory derives for it. *)
Definition elasticsearch_context : value :=
  context "elasticsearch"
    [("url", VStr "http://es:9200"); ("username", VStr "u"); ("password", VStr "p")].

Definition elasticsearch_config : gmap string value :=
  list_to_map
    [("url", VStr "http://es:9200"); ("username", VStr "u"); ("password", VStr "p");
     ("queryFormat", VStr "json");
     ("auth", obj [("username", VStr "u"); ("password", VStr "p")]);
     ("account", VStr "-")].

(** An mssql datasource with no port, a druid datasource with no host. *)
Definition mssql_context : value := context "mssql" [("host", VStr "h")].

Definition druid_context : value := context "druid" [("port", VNum (Int 8082))].

(** Parameters that hold [fields] and, under [__proto__], an object that
    holds [rest]: after the cleaning the configuration has the former as its
    fields and reads the latter from its prototype. *)
Definition inheriting_params (fields rest : list (string * value)) : gmap string value :=
  list_to_map (fields ++ [("__proto__", obj rest)]).

Definition inheriting (type : string) (fields rest : list (string * value)) : value :=
  obj [("dbType", VStr type); ("dbParams", VObj (inheriting_params fields rest))].


(** A context as [setupAuthInfo] builds it for the restricted user. *)
Definition member_context : value :=
  VObj (<[ "dataSourceId" := VStr "ds1" ]> (<[ "userId" := VStr "u1" ]> (spread_props restricted))).

Definition query (dimensions measures : list string) : value :=
  obj [("dimensions", VArr (VStr <$> dimensions)); ("measures", VArr (VStr <$> measures))].


Definition request (token : string) : Request :=
  {| headers := {[ "authorization" := VStr token ]}; securityContext := VUndef |}.

End Sample.

(** ** The remaining options of the server (lines 319-367) *)

Definition contextToAppId (securityContext : value) : value :=
  VStr ("CUBEJS_APP_" +:+ toString (own securityContext "dataSourceVersion")).

Definition contextToOrchestratorId (securityContext : value) : value :=
  VStr ("CUBEJS_APP_" +:+ toString (own securityContext "dataSourceVersion")).

Definition preAggregationsSchema (securityContext : value) : value :=
  VStr ("pre_aggregations_" +:+ toString (own securityContext "dataSourceVersion")).

Definition schemaVersion (securityContext : value) : value :=
  own securityContext "schemaVersion".

(** [checkSqlAuth]; [findSqlCredentials] is a helper of
    [dataSourceHelpers.js], taken as an argument. *)
Definition checkSqlAuth (W : World) (findSqlCredentials : value → completion value)
    (req user : value) : completion value :=
  sqlCredentials ← findSqlCredentials user;
  if negb (truthy sqlCredentials) then
    Throw (new_Error (VStr "Incorrect user name or password"))
  else
    let context := buildSecurityContext W (own sqlCredentials "datasource") in
    Normal (VObj (<[ "securityContext" :=
                       VObj (<[ "userId" := own sqlCredentials "user_id" ]>
                               (spread_props context)) ]>
                    {[ "password" := own sqlCredentials "password" ]})).

(** ** The RPC handler [fetchTables.js]

    [cubejsApi] and [apiError] are modules of the actions service that the
    handler imports: [getSchemaTables] stands for the awaited call
    [cubejsApi({ dataSourceId, userId, authToken }).getSchemaTables()]. *)
Record Api := {
  getSchemaTables : value → value → value → completion value;
  apiError : value → completion value;
}.

Definition fetchTables (A : Api) (session input headers : value) : completion value :=
  let dataSourceId := own (or_else input (VObj ∅)) "datasource_id" in
  let userId := own session "x-hasura-user-id" in
  match getSchemaTables A dataSourceId userId (own headers "authorization") with
  | Normal result => Normal (VObj {[ "schema" := result ]})
  | Throw err => apiError A err
  end.

(** ** Notions used to state further properties *)

(** What it is for a context to reach the dispatch: credentials present,
    parameters parsed to the mapping, validation passed. *)
Definition reaches_dispatch (W : World) (sc : value) (params : gmap string value) : Prop :=
  let context := or_else sc (VObj ∅) in
  checkCredentials (own context "dbParams") = Go tt
  ∧ parseDbParams W (own context "dbParams") = Go (VObj params)
  ∧ validate W (cleaned params) (own context "error") = Go tt.

(** The keys some case of the dispatch assigns. *)
Definition derived_keys : list string :=
  ["credentials"; "server"; "port"; "accessKeyId"; "secretAccessKey";
   "S3OutputLocation"; "region"; "queryFormat"; "url"; "auth"; "account";
   "connection"].

(** The keys the case of a type assigns, case by case. *)
Definition assigned_keys (dbType : value) : list string :=
  if is_string dbType "bigquery" then ["credentials"]
  else if is_string dbType "mssql" then ["server"; "port"]
  else if is_string dbType "clickhouse" then
    ["host"; "port"; "auth"; "protocol"; "queryOptions"]
  else if is_string dbType "athena" then
    ["accessKeyId"; "secretAccessKey"; "S3OutputLocation"; "region"]
  else if is_string dbType "elasticsearch" then ["queryFormat"; "url"; "auth"; "account"]
  else if is_string dbType "snowflake" then ["account"]
  else if is_string dbType "druid" || is_string dbType "ksql" then ["url"]
  else if is_string dbType "firebolt" then ["connection"]
  else [].

(** The cases that build the configuration anew by a spread. *)
Definition spreads (dbType : value) : bool :=
  is_string dbType "bigquery" || is_string dbType "mssql" || is_string dbType "athena"
  || is_string dbType "elasticsearch" || is_string dbType "snowflake".

Definition credentials_missing : value :=
  message_object "Datasource credentials not found or incorrect".

(** Further sample inputs. *)
Module Cases.

Definition decoded_world (decoded : value) : World := {|
  JSON_parse := JSON_parse Sample.world;
  StringToNumber := StringToNumber Sample.world;
  CUBEJS_SECRET := CUBEJS_SECRET Sample.world;
  jwt_verify := λ _ _, Normal decoded;
  findDataSource := findDataSource Sample.world;
  getPermissions := getPermissions Sample.world;
  buildSecurityContext := buildSecurityContext Sample.world;
  DriverDependencies := DriverDependencies Sample.world;
  import_module := import_module Sample.world;
  construct := construct Sample.world;
  perform := perform Sample.world |}.

(** A world in which every driver constructor throws. *)
Definition refusing_world : World := {|
  JSON_parse := JSON_parse Sample.world;
  StringToNumber := StringToNumber Sample.world;
  CUBEJS_SECRET := CUBEJS_SECRET Sample.world;
  jwt_verify := jwt_verify Sample.world;
  findDataSource := findDataSource Sample.world;
  getPermissions := getPermissions Sample.world;
  buildSecurityContext := buildSecurityContext Sample.world;
  DriverDependencies :=
    <[ "databricks-jdbc" := VStr "@cubejs-backend/databricks-jdbc-driver" ]>
      (DriverDependencies Sample.world);
  import_module := λ specifier,
    if String.eqb specifier "@cubejs-backend/databricks-jdbc-driver"
    then Normal (Sample.obj [("DatabricksDriver", VFun "DatabricksDriver")])
    else import_module Sample.world specifier;
  construct := λ _ _, Throw (VErr "Error" "connection string missing");
  perform := perform Sample.world |}.

Definition api : Api := {|
  getSchemaTables := λ dataSourceId userId authToken,
    if is_string dataSourceId "ds1" then Normal (Sample.obj [("public", VArr [])])
    else Throw (VErr "Error" "Request failed with status code 403");
  apiError := λ err,
    Normal (Sample.obj [("error", VBool true); ("message", own err "message")]) |}.

(** A world whose [JSON.parse] also reads the document [{"host":"h"}]. *)
Definition host_json : string :=
  "{" +:+ dquote +:+ "host" +:+ dquote +:+ ":" +:+ dquote +:+ "h" +:+ dquote +:+ "}".

Definition parsing_world : World := {|
  JSON_parse := λ s,
    if String.eqb s host_json then Normal (VObj {[ "host" := VStr "h" ]})
    else JSON_parse Sample.world s;
  StringToNumber := StringToNumber Sample.world;
  CUBEJS_SECRET := CUBEJS_SECRET Sample.world;
  jwt_verify := jwt_verify Sample.world;
  findDataSource := findDataSource Sample.world;
  getPermissions := getPermissions Sample.world;
  buildSecurityContext := buildSecurityContext Sample.world;
  DriverDependencies := <[ "bigquery" := VStr "@cubejs-backend/bigquery-driver" ]>
                          (DriverDependencies Sample.world);
  import_module := λ specifier,
    if String.eqb specifier "@cubejs-backend/bigquery-driver"
    then Normal (Sample.package "BigQueryDriver")
    else import_module Sample.world specifier;
  construct := construct Sample.world;
  perform := perform Sample.world |}.

Definition sql_store (user : value) : completion value :=
  Normal (if is_string user "alice"
          then Sample.obj [("password", VStr "pw"); ("user_id", VStr "u1");
                           ("datasource", Sample.obj [("id", VStr "ds1")])]
          else VNull).

End Cases.


(** * Properties *)

(** Closed goals are settled by evaluation. *)
Ltac evaluate := vm_compute; reflexivity.

(** ** Objects built by folding insertions *)

Lemma lookup_assign (res : gmap string value) (k key : string) (v : value) :
  v ≠ VNull →
  assign res k v !! key
  = if decide (key = k ∧ (key = "__proto__" → object_like v = true)) then Some v
    else res !! key.
Proof.
  intros Hnull. unfold assign. destruct (String.eqb k "__proto__") eqn:Hk.
  - apply String.eqb_eq in Hk as ->. destruct (object_like v) eqn:Hobj.
    + destruct (decide (key = "__proto__")) as [->|Hne].
      * rewrite decide_True; [by rewrite lookup_insert_eq | done].
      * rewrite decide_False; [by rewrite lookup_insert_ne | by intros [? _]].
    + rewrite decide_False; [by destruct v | intros [-> Hok]; by specialize (Hok eq_refl)].
  - apply String.eqb_neq in Hk. destruct (decide (key = k)) as [->|Hne].
    + rewrite decide_True; [by rewrite lookup_insert_eq | done].
    + rewrite decide_False; [by rewrite lookup_insert_ne | by intros [? _]].
Qed.

Lemma lookup_foldl_assign (f : string → value) (keys : list string)
    (acc : gmap string value) (key : string) :
  (∀ k, k ∈ keys → f k ≠ VNull) →
  foldl (λ res k, assign res k (f k)) acc keys !! key
  = if decide (key ∈ keys ∧ (key = "__proto__" → object_like (f key) = true))
    then Some (f key) else acc !! key.
Proof.
  revert acc. induction keys as [|k keys IH]; intros acc Hnull.
  - rewrite decide_False; [done | intros [Hin _]; by apply not_elem_of_nil in Hin].
  - simpl. rewrite IH; [| intros k' Hk'; apply Hnull; by right].
    rewrite lookup_assign; [| apply Hnull; by left].
    destruct (decide (key ∈ keys ∧ (key = "__proto__" → object_like (f key) = true)))
      as [[Hin Hok]|Hout].
    + rewrite decide_True; [done | split; [by right | done]].
    + destruct (decide (key = k ∧ (key = "__proto__" → object_like (f k) = true)))
        as [[-> Hok]|Hne].
      * rewrite decide_True; [done | split; [by left | done]].
      * rewrite decide_False; [done |].
        intros [[->|Hin]%elem_of_cons Hok]; [apply Hne | apply Hout]; done.
Qed.

Lemma elem_of_filter_bool {A} (p : A → bool) (l : list A) (x : A) :
  x ∈ List.filter p l ↔ x ∈ l ∧ p x = true.
Proof. rewrite !list_elem_of_In. apply filter_In. Qed.

Lemma elem_of_keys (m : gmap string value) (key : string) :
  key ∈ map fst (map_to_list m) ↔ is_Some (m !! key).
Proof.
  rewrite list_elem_of_fmap. split.
  - intros [[k v] [-> Hin]]. apply elem_of_map_to_list in Hin. by exists v.
  - intros [v Hv]. exists (key, v). split; [done | by apply elem_of_map_to_list].
Qed.

(** The cleaning of step 3 never raises. *)
Lemma cleanDbParams_total (parsed : value) :
  ∃ dbConfig, cleanDbParams parsed = Normal dbConfig.
Proof.
  unfold cleanDbParams, or_else.
  destruct (truthy parsed) eqn:Htruthy; [| simpl; eauto].
  destruct parsed; try discriminate Htruthy; simpl; eauto.
Qed.

Lemma truthy_not_null (v : value) : truthy v = true → v ≠ VNull.
Proof. by intros Htruthy ->. Qed.

(** Every entry of the cleaned object is a truthy own property of the parsed
    value. *)
Lemma cleanDbParams_lookup (parsed : value) (dbConfig : gmap string value)
    (key : string) (v : value) :
  cleanDbParams parsed = Normal dbConfig →
  dbConfig !! key = Some v →
  v = own parsed key ∧ truthy v = true.
Proof.
  unfold cleanDbParams. intros Hclean Hlook.
  destruct (Object_keys (or_else parsed (VObj ∅))) as [keys|e]; simpl in Hclean; [|done].
  injection Hclean as <-. rewrite lookup_foldl_assign in Hlook.
  - case_decide as Hin.
    + injection Hlook as <-. destruct Hin as [Hin _].
      apply elem_of_filter_bool in Hin as [_ Htruthy]. done.
    + by rewrite lookup_empty in Hlook.
  - intros k [_ Htruthy]%elem_of_filter_bool. by apply truthy_not_null.
Qed.

(** On a plain object the cleaning keeps the entries with a truthy value,
    that of [__proto__] only when it is an object. *)
Lemma cleanDbParams_obj (m : gmap string value) :
  cleanDbParams (VObj m) = Normal (cleaned m).
Proof.
  unfold cleanDbParams, cleaned. simpl. f_equal. apply map_eq. intros key.
  rewrite lookup_foldl_assign, map_lookup_filter;
    [| intros k [_ Htruthy]%elem_of_filter_bool; by apply truthy_not_null].
  simpl. case_decide as Hin.
  - destruct Hin as [Hin Hok].
    apply elem_of_filter_bool in Hin as [[v Hv]%elem_of_keys Htruthy].
    rewrite Hv in *. simpl in *. by rewrite option_guard_True.
  - destruct (m !! key) as [v|] eqn:Hv; simpl; [|done].
    case_guard as Hkeep; [|done]. simpl in Hkeep. destruct Hkeep as [Htruthy Hok].
    exfalso. apply Hin. split.
    + apply elem_of_filter_bool. split; [apply elem_of_keys; eauto |]. by rewrite Hv.
    + exact Hok.
Qed.

(** What the cleaning keeps of a plain object, entry by entry. *)
Lemma lookup_cleaned (m : gmap string value) (key : string) :
  cleaned m !! key
  = match m !! key with
    | Some v =>
        if truthy v && (negb (String.eqb key "__proto__") || object_like v)
        then Some v else None
    | None => None
    end.
Proof.
  unfold cleaned. rewrite map_lookup_filter.
  destruct (m !! key) as [v|]; simpl; [|done].
  case_guard as Hkeep; simpl in *.
  - destruct Hkeep as [-> Hok].
    destruct (String.eqb key "__proto__") eqn:Hkey; simpl; [|done].
    apply String.eqb_eq in Hkey. by rewrite (Hok Hkey).
  - destruct (truthy v) eqn:Htruthy; simpl; [|done].
    destruct (String.eqb key "__proto__") eqn:Hkey; simpl.
    + destruct (object_like v) eqn:Hobj; [|done]. exfalso. by apply Hkeep.
    + exfalso. apply Hkeep. split; [done |]. intros ->. by rewrite String.eqb_refl in Hkey.
Qed.

(** An own field of the mapping that is truthy is read back from the
    cleaned object. *)
Lemma read_cleaned_own (m : gmap string value) (key : string) (v : value) :
  m !! key = Some v → truthy v = true → key ≠ "__proto__" →
  read (cleaned m) key = v.
Proof.
  intros Hv Htruthy Hkey. unfold read. rewrite lookup_cleaned, Hv, Htruthy.
  apply String.eqb_neq in Hkey. by rewrite Hkey.
Qed.

(** An own field that is neither [undefined] nor [null] is what a read
    returns. *)
Lemma read_of_field (dbConfig : gmap string value) (key : string) (v : value) :
  field dbConfig key = v → nullish v = false → read dbConfig key = v.
Proof.
  unfold field, read. destruct (dbConfig !! key); simpl; [done |]. by intros <-.
Qed.


(** ** The query access filter *)


Lemma includes_elevated (role : value) :
  includes [VStr "owner"; VStr "admin"] role = true ↔ elevated role.
Proof.
  unfold includes, elevated. cbn [existsb].
  destruct role as [| | | |s| | | |]; cbn [same_value_zero];
    try (split; [done | by intros [?|?]]).
  rewrite orb_false_r, orb_true_iff, !String.eqb_eq. split.
  - intros [<- | <-]; auto.
  - intros [[= <-] | [= <-]]; auto.
Qed.

Lemma includes_not_elevated (role : value) :
  ¬ elevated role → includes [VStr "owner"; VStr "admin"] role = false.
Proof.
  intros Hrole. apply not_true_is_false. by rewrite includes_elevated.
Qed.





Section PermissionsInForce.

Context (W : World).

(** [queryRewrite] once the permissions in force are known. *)
Lemma queryRewrite_in_force (query sc perms : value) :
  nullish sc = false →
  permissionsOf W sc (own sc "userId") = Normal perms →
  nullish perms = false →
  queryRewrite W query sc =
    let config := own perms "config" in
    let accessDatasource := accessDatasourceOf config (own sc "dataSourceId") in
    if includes [VStr "owner"; VStr "admin"] (own perms "role") || negb (truthy config) then
      Normal query
    else if negb (truthy accessDatasource) then
      Throw (new_Error (VStr "No access to datasource!"))
    else
      queryNames ← getColumnsArray query;
      accessNames ← accessNamesOf accessDatasource;
      _ ← forEach (λ cn, if negb (includes accessNames cn) then Throw (denied cn)
                         else Normal tt) queryNames;
      Normal query.
Proof.
  intros Hsc Hperms Hnullish. unfold queryRewrite, member.
  rewrite Hsc. simpl. rewrite Hperms. simpl. by rewrite Hnullish.
Qed.

Lemma truthy_own_not_nullish (base : value) (key : string) :
  truthy (own base key) = true → nullish base = false.
Proof. by destruct base. Qed.

Lemma permissionsOf_own (sc userId : value) :
  truthy (own sc "config") = true → permissionsOf W sc userId = Normal sc.
Proof. unfold permissionsOf. by intros ->. Qed.


End PermissionsInForce.







(** C10. A context that carries a config and a role other than owner and
    admin, and whose config has no [cubes] entry for the context's
    [dataSourceId], is refused with "No access to datasource!" whatever the
    query, the empty one included. *)
Theorem queryRewrite_no_datasource (W : World) (query sc : value) :
  truthy (own sc "config") = true →
  ¬ elevated (own sc "role") →
  truthy (accessDatasourceOf (own sc "config") (own sc "dataSourceId")) = false →
  queryRewrite W query sc = Throw (VErr "Error" "No access to datasource!").
Proof.
  intros Hconfig Hrole Haccess.
  pose proof (truthy_own_not_nullish _ _ Hconfig) as Hsc.
  rewrite (queryRewrite_in_force W query sc sc Hsc (permissionsOf_own W sc _ Hconfig) Hsc).
  cbv zeta. by rewrite (includes_not_elevated _ Hrole), Hconfig, Haccess.
Qed.

Lemma queryRewrite_no_datasource_witness :
  queryRewrite Sample.world (Sample.query [] [])
    (VObj (<[ "dataSourceId" := VStr "ds2" ]> (spread_props Sample.restricted)))
  = Throw (VErr "Error" "No access to datasource!").
Proof.
  apply queryRewrite_no_datasource; [evaluate | | evaluate].
  replace (own _ "role") with (VStr "member") by evaluate. by intros [?|?].
Defined.

(** ** The auth gate *)

(** C4. When [jwt.verify] throws, the request leaves [setupAuthInfo] with a
    security context whose single field is [error], holding the [message] of
    what was thrown; the call returns [null] and raises nothing. *)
Theorem setupAuthInfo_verification_failure (W : World) (req : Request) (auth err : value) :
  jwt_verify W (field (headers req) "authorization") (CUBEJS_SECRET W) = Throw err →
  nullish err = false →
  ∃ req',
    setupAuthInfo W req auth = Normal (req', VNull)
    ∧ headers req' = headers req
    ∧ securityContext req' = VObj {[ "error" := own err "message" ]}
    ∧ ∀ key, key ≠ "error" → own (securityContext req') key = VUndef.
Proof.
  intros Hverify Herr. eexists. unfold setupAuthInfo, member.
  rewrite Hverify, Herr. split; [reflexivity |]. split; [reflexivity |].
  split; [reflexivity |]. intros key Hkey. simpl. by rewrite lookup_singleton_ne.
Qed.

Lemma setupAuthInfo_verification_failure_witness :
  ∃ req',
    setupAuthInfo Sample.world (Sample.request "forged") VUndef = Normal (req', VNull)
    ∧ headers req' = headers (Sample.request "forged")
    ∧ securityContext req' = VObj {[ "error" := VStr "invalid signature" ]}
    ∧ ∀ key, key ≠ "error" → own (securityContext req') key = VUndef.
Proof.
  apply (setupAuthInfo_verification_failure Sample.world (Sample.request "forged") VUndef
           (VErr "JsonWebTokenError" "invalid signature")); evaluate.
Defined.

(** ** The driver factory: the steps before the dispatch *)

Section Steps.

Context (W : World).

Lemma configure_parsed (sc : value) (params : gmap string value) :
  let context := or_else sc (VObj ∅) in
  let dbConfig := cleaned params in
  checkCredentials (own context "dbParams") = Go tt →
  parseDbParams W (own context "dbParams") = Go (VObj params) →
  configure W sc
  = (_ ← validate W dbConfig (own context "error");
     deriveConfig W (own context "dbType") dbConfig).
Proof.
  intros context dbConfig Hcred Hparse. unfold configure. fold context.
  rewrite Hcred, Hparse. cbn [mbind flow_bind]. by rewrite cleanDbParams_obj.
Qed.






(** ** The driver factory: the dispatch and the loading *)

Lemma is_string_false (v : value) (s : string) : v ≠ VStr s → is_string v s = false.
Proof.
  intros Hne. destruct v as [| | | |t| | | |]; try done. unfold is_string.
  apply String.eqb_neq. congruence.
Qed.

Lemma deriveConfig_default (dbType : value) (dbConfig : gmap string value) :
  (∀ s, s ∈ derived_types → dbType ≠ VStr s) →
  deriveConfig W dbType dbConfig = Go dbConfig.
Proof.
  intros Hother. unfold deriveConfig.
  rewrite !is_string_false; [done | ..]; apply Hother; unfold derived_types;
    repeat (apply elem_of_cons; first [by left | right]).
Qed.


(** A field whose name differs from every assigned key survives the
    insertions of a case and the spread. *)
Ltac keep_field H :=
  destruct H as (? & ? & ? & ? & ? & ? & ? & ? & ? & ? & ? & ?);
  unfold own_fields;
  repeat first
    [ rewrite lookup_insert_ne by (apply not_eq_sym; assumption)
    | rewrite lookup_delete_ne by (apply not_eq_sym; assumption) ];
  done.

Ltac some_field :=
  unfold own_fields;
  repeat first
    [ rewrite lookup_delete_ne by (apply not_eq_sym; assumption)
    | rewrite lookup_insert_is_Some'; right ];
  assumption.

(** The cases of the dispatch other than clickhouse, field by field: a field
    that is none of those the cases assign is as in [dbConfig], and no field
    of [dbConfig] is removed. *)
Lemma deriveConfig_fields (type : value) (dbConfig derived : gmap string value)
    (key : string) :
  deriveConfig W type dbConfig = Go derived →
  is_string type "clickhouse" = false →
  (key ∉ derived_keys → key ≠ "__proto__" → derived !! key = dbConfig !! key)
  ∧ (key ≠ "__proto__" → is_Some (dbConfig !! key) → is_Some (derived !! key)).
Proof.
  intros Hderive Hclickhouse.
  assert (Hkeys : key ∉ derived_keys →
            key ≠ "credentials" ∧ key ≠ "server" ∧ key ≠ "port" ∧ key ≠ "accessKeyId"
            ∧ key ≠ "secretAccessKey" ∧ key ≠ "S3OutputLocation" ∧ key ≠ "region"
            ∧ key ≠ "queryFormat" ∧ key ≠ "url" ∧ key ≠ "auth" ∧ key ≠ "account"
            ∧ key ≠ "connection").
  { unfold derived_keys. rewrite !not_elem_of_cons. tauto. }
  revert Hderive. unfold deriveConfig, snowflake_case, elasticsearch_case.
  rewrite Hclickhouse. cbv zeta.
  destruct (is_string type "bigquery").
  { destruct (JSON_parse W _) as [document|e]; [| done]. intros [= <-].
    split.
    - intros Hkey%Hkeys Hproto. keep_field Hkey.
    - intros Hproto Hsome. some_field. }
  destruct (is_string type "mssql").
  { destruct (truthy _); [| done]. intros [= <-]. split.
    - intros Hkey%Hkeys Hproto. keep_field Hkey.
    - intros Hproto Hsome. some_field. }
  destruct (is_string type "athena").
  { intros [= <-]. split.
    - intros Hkey%Hkeys Hproto. keep_field Hkey.
    - intros Hproto Hsome. some_field. }
  destruct (is_string type "elasticsearch").
  { intros [= <-]. split.
    - intros Hkey%Hkeys Hproto. destruct (_ && _); keep_field Hkey.
    - intros Hproto Hsome. destruct (_ && _); some_field. }
  destruct (is_string type "snowflake").
  { intros [= <-]. split.
    - intros Hkey%Hkeys Hproto. keep_field Hkey.
    - intros Hproto Hsome. some_field. }
  destruct (is_string type "druid" || is_string type "ksql").
  { destruct (makeUrl _ _) as [url|e]; [| done]. intros [= <-]. split.
    - intros Hkey%Hkeys Hproto. keep_field Hkey.
    - intros Hproto Hsome. some_field. }
  destruct (is_string type "firebolt").
  { intros [= <-]. split.
    - intros Hkey%Hkeys Hproto. keep_field Hkey.
    - intros Hproto Hsome. some_field. }
  intros [= <-]. done.
Qed.

(** The prototype of [dbConfig] is left behind by the cases that spread and
    kept by the others. *)
Ltac prototype_entry :=
  unfold own_fields;
  repeat first
    [ rewrite lookup_insert_ne by done
    | rewrite lookup_delete_eq
    | rewrite lookup_delete_ne by done ];
  done.

Lemma deriveConfig_prototype (type : value) (dbConfig derived : gmap string value) :
  deriveConfig W type dbConfig = Go derived →
  is_string type "clickhouse" = false →
  derived !! "__proto__" = if spreads type then None else dbConfig !! "__proto__".
Proof.
  intros Hderive Hclickhouse. revert Hderive.
  unfold deriveConfig, spreads, snowflake_case, elasticsearch_case.
  rewrite Hclickhouse. cbv zeta.
  destruct (is_string type "bigquery").
  { destruct (JSON_parse W _) as [document|e]; [| done]. intros [= <-]. prototype_entry. }
  destruct (is_string type "mssql").
  { destruct (truthy _); [| done]. intros [= <-]. prototype_entry. }
  destruct (is_string type "athena").
  { intros [= <-]. prototype_entry. }
  destruct (is_string type "elasticsearch").
  { intros [= <-]. destruct (_ && _); prototype_entry. }
  destruct (is_string type "snowflake").
  { intros [= <-]. prototype_entry. }
  destruct (is_string type "druid" || is_string type "ksql").
  { destruct (makeUrl _ _) as [url|e]; [| done]. intros [= <-]. prototype_entry. }
  destruct (is_string type "firebolt").
  { intros [= <-]. prototype_entry. }
  by intros [= <-].
Qed.

(** A name under which [dbConfig] has no entry names no field of the
    derived configuration, unless the case of the type assigns it. *)
Ltac absent_field H :=
  rewrite ?not_elem_of_cons in H; destruct_and?;
  unfold own_fields;
  repeat first
    [ rewrite lookup_insert_ne by (apply not_eq_sym; assumption)
    | rewrite lookup_singleton_ne by (apply not_eq_sym; assumption)
    | rewrite lookup_delete; case_decide; [done |] ];
  done.

Lemma deriveConfig_absent (type : value) (dbConfig derived : gmap string value)
    (key : string) :
  deriveConfig W type dbConfig = Go derived →
  dbConfig !! key = None →
  key ∉ assigned_keys type →
  derived !! key = None.
Proof.
  intros Hderive Habsent. revert Hderive.
  unfold deriveConfig, assigned_keys, snowflake_case, elasticsearch_case. cbv zeta.
  destruct (is_string type "bigquery").
  { destruct (JSON_parse W _) as [document|e]; [| done]. intros [= <-] Hkey.
    absent_field Hkey. }
  destruct (is_string type "mssql").
  { destruct (truthy _); [| done]. intros [= <-] Hkey. absent_field Hkey. }
  destruct (is_string type "clickhouse").
  { intros [= <-] Hkey. absent_field Hkey. }
  destruct (is_string type "athena").
  { intros [= <-] Hkey. absent_field Hkey. }
  destruct (is_string type "elasticsearch").
  { intros [= <-] Hkey. destruct (_ && _); absent_field Hkey. }
  destruct (is_string type "snowflake").
  { intros [= <-] Hkey. absent_field Hkey. }
  destruct (is_string type "druid" || is_string type "ksql").
  { destruct (makeUrl _ _) as [url|e]; [| done]. intros [= <-] Hkey. absent_field Hkey. }
  destruct (is_string type "firebolt").
  { intros [= <-] Hkey. absent_field Hkey. }
  by intros [= <-] _.
Qed.




End Steps.

(** ** The driver factory: port validation *)




(** ** The driver factory: cleaning of the parameters *)

(** C7, as the code has it.  The cleaning of lines 141-144 yields an object
    [dbConfig] in which no name whose value in the parsed mapping is falsy
    has an entry and whose entries are all truthy; cleaning the own fields
    of [dbConfig] again yields them; for a type the dispatch has no case
    for, [dbConfig] is the configuration the dispatch leaves; and for every
    type, the configuration the dispatch derives has no field under a name
    whose value in the parsed mapping is falsy, unless the name is one the
    case of the type assigns ([assigned_keys]). *)
Theorem cleanDbParams_strips (W : World) (parsed : value) :
  ∃ dbConfig,
    cleanDbParams parsed = Normal dbConfig
    ∧ (∀ key, truthy (own parsed key) = false → dbConfig !! key = None)
    ∧ (∀ key v, dbConfig !! key = Some v → truthy v = true)
    ∧ cleanDbParams (VObj (own_fields dbConfig)) = Normal (own_fields dbConfig)
    ∧ (∀ dbType, (∀ s, s ∈ derived_types → dbType ≠ VStr s) →
         deriveConfig W dbType dbConfig = Go dbConfig)
    ∧ (∀ dbType derived key,
         deriveConfig W dbType dbConfig = Go derived →
         truthy (own parsed key) = false →
         key ∉ assigned_keys dbType →
         derived !! key = None).
Proof.
  destruct (cleanDbParams_total parsed) as [dbConfig Hclean]. exists dbConfig.
  assert (Hfalsy : ∀ key, truthy (own parsed key) = false → dbConfig !! key = None).
  { intros key Hfalsy. destruct (dbConfig !! key) as [v|] eqn:Hlook; [|done].
    destruct (cleanDbParams_lookup _ _ _ _ Hclean Hlook) as [-> Htruthy]. congruence. }
  split; [done |]. split; [done |]. split; [| split; [| split]].
  - intros key v Hlook. by destruct (cleanDbParams_lookup _ _ _ _ Hclean Hlook).
  - rewrite cleanDbParams_obj. f_equal. apply map_eq. intros key.
    rewrite lookup_cleaned. unfold own_fields. rewrite lookup_delete.
    case_decide as Hkey; [done |].
    destruct (dbConfig !! key) as [v|] eqn:Hlook; [| done].
    destruct (cleanDbParams_lookup _ _ _ _ Hclean Hlook) as [_ ->].
    replace (String.eqb key "__proto__") with false; [done |].
    symmetry. apply String.eqb_neq. congruence.
  - intros dbType Hother. by apply deriveConfig_default.
  - intros dbType derived key Hderive Hkey Hassigned.
    apply (deriveConfig_absent W dbType dbConfig derived key Hderive); [| done].
    by apply Hfalsy.
Qed.

Lemma cleanDbParams_strips_witness :
  ∃ dbConfig,
    cleanDbParams (Sample.obj [("host", VStr "h"); ("port", VNum (Int 0)); ("ssl", VBool false)])
      = Normal dbConfig
    ∧ dbConfig !! "port" = None
    ∧ cleanDbParams (VObj (own_fields dbConfig)) = Normal (own_fields dbConfig)
    ∧ deriveConfig Sample.world (VStr "postgres") dbConfig = Go dbConfig
    ∧ ∀ derived, deriveConfig Sample.world (VStr "clickhouse") dbConfig = Go derived →
                 derived !! "ssl" = None.
Proof.
  destruct (cleanDbParams_strips Sample.world
    (Sample.obj [("host", VStr "h"); ("port", VNum (Int 0)); ("ssl", VBool false)]))
    as (dbConfig & Hclean & Hfalsy & _ & Hagain & Hdefault & Hderived).
  exists dbConfig. split; [exact Hclean |]. split; [apply Hfalsy; evaluate |].
  split; [exact Hagain |]. split.
  - apply Hdefault. intros s Hs [= <-].
    unfold derived_types in Hs.
    repeat (apply elem_of_cons in Hs as [Hs|Hs]; [discriminate Hs |]).
    by apply elem_of_nil in Hs.
  - intros derived Hderive. apply (Hderived (VStr "clickhouse") derived "ssl" Hderive).
    + evaluate.
    + apply (bool_decide_eq_true_1 ("ssl" ∉ assigned_keys (VStr "clickhouse"))). evaluate.
Defined.

(** C7 as stated fails on the configuration the driver receives: for a
    clickhouse datasource whose parameters hold [port: 0] and neither user nor
    password, that configuration has the field [port], holding [undefined],
    and the field [auth], holding the empty string. *)
Lemma clickhouse_config_keeps_falsy_fields :
  truthy (own Sample.bare_clickhouse_params "port") = false
  ∧ configure Sample.world Sample.bare_clickhouse_context = Go Sample.bare_clickhouse_config
  ∧ driverFactory Sample.world Sample.bare_clickhouse_context
    = Normal (Driver "ClickHouseDriver" (VObj Sample.bare_clickhouse_config))
  ∧ Sample.bare_clickhouse_config !! "port" = Some VUndef
  ∧ Sample.bare_clickhouse_config !! "auth" = Some (VStr "").
Proof. repeat split; evaluate. Qed.

(** ** The driver factory: the type-specific derivations *)

Lemma append_cons (a : ascii) (s t : string) : String a s +:+ t = String a (s +:+ t).
Proof. reflexivity. Qed.

Lemma startsWith_app (s p : string) : startsWith s p = true ↔ ∃ rest, s = p +:+ rest.
Proof.
  unfold startsWith. revert s. induction p as [|a p IH]; intros s.
  - split; [intros _; by exists s | by destruct s].
  - destruct s as [|b s]; simpl.
    + split; [done | by intros [? ?]].
    + destruct (ascii_dec a b) as [->|Hne].
      * rewrite IH. split; intros [rest Hrest]; exists rest;
          rewrite append_cons in *; congruence.
      * split; [done |]. intros [rest Hrest]. rewrite append_cons in Hrest. congruence.
Qed.

(** C8. For the types druid and ksql, a host string [h] and a port of the
    configuration give the [url] [scheme://host:port], where [scheme://host]
    is [h] itself when [h] starts with [http://] or [https://], and [scheme]
    is [http] and [host] is [h] otherwise.  This is what [makeUrl] returns,
    what the dispatch adds to any configuration holding [h] and the port, and
    what [configure] yields for a context whose parameters hold them (a field
    that reaches the dispatch is truthy and the port has passed
    [connParamValid]). *)
Theorem druid_ksql_url (W : World) (type h : string) (port : value) :
  type = "druid" ∨ type = "ksql" →
  nullish port = false →
  ∃ scheme host,
    let url := VStr (scheme +:+ "://" +:+ host +:+ ":" +:+ toString port) in
    ((h = scheme +:+ "://" +:+ host ∧ (scheme = "http" ∨ scheme = "https"))
     ∨ (startsWith h "http://" = false ∧ startsWith h "https://" = false
        ∧ scheme = "http" ∧ host = h))
    ∧ makeUrl (VStr h) port = Normal url
    ∧ (∀ dbConfig : gmap string value,
         field dbConfig "host" = VStr h →
         field dbConfig "port" = port →
         deriveConfig W (VStr type) dbConfig = Go (<[ "url" := url ]> dbConfig))
    ∧ (∀ (sc : value) (params : gmap string value),
         let context := or_else sc (VObj ∅) in
         checkCredentials (own context "dbParams") = Go tt →
         parseDbParams W (own context "dbParams") = Go (VObj params) →
         own context "dbType" = VStr type →
         truthy (own context "error") = false →
         params !! "host" = Some (VStr h) → h ≠ "" →
         params !! "port" = Some port → truthy port = true →
         connParamValid W port = Normal tt →
         configure W sc
         = Go (<[ "url" := url ]> (cleaned params))).
Proof.
  intros Htype Hport.
  assert (Hjoin : ∀ prefixed, join ":" [VStr prefixed; port]
                              = prefixed +:+ ":" +:+ toString port).
  { intros prefixed. unfold join. cbn [map nullish concat_sep]. by rewrite Hport. }
  assert (Hurl : ∃ scheme host,
    ((h = scheme +:+ "://" +:+ host ∧ (scheme = "http" ∨ scheme = "https"))
     ∨ (startsWith h "http://" = false ∧ startsWith h "https://" = false
        ∧ scheme = "http" ∧ host = h))
    ∧ makeUrl (VStr h) port
      = Normal (VStr (scheme +:+ "://" +:+ host +:+ ":" +:+ toString port))).
  { unfold makeUrl, addHttpPrefix.
    destruct (startsWith h "http://") eqn:Hhttp.
    - apply startsWith_app in Hhttp as [rest ->]. exists "http", rest.
      split; [left; auto |]. cbn [negb andb mbind completion_bind].
      by rewrite Hjoin.
    - destruct (startsWith h "https://") eqn:Hhttps.
      + apply startsWith_app in Hhttps as [rest ->]. exists "https", rest.
        split; [left; auto |]. cbn [negb andb mbind completion_bind].
        by rewrite Hjoin.
      + exists "http", h. split; [right; auto |].
        cbn [negb andb mbind completion_bind]. by rewrite Hjoin. }
  destruct Hurl as (scheme & host & Hshape & Hmake). exists scheme, host.
  cbv zeta. split; [exact Hshape |]. split; [exact Hmake |].
  assert (Hderive : ∀ dbConfig : gmap string value,
            field dbConfig "host" = VStr h →
            field dbConfig "port" = port →
            deriveConfig W (VStr type) dbConfig
            = Go (<[ "url" := VStr (scheme +:+ "://" +:+ host +:+ ":" +:+ toString port) ]>
                    dbConfig)).
  { intros dbConfig Hhost Hfield.
    assert (Hcase : deriveConfig W (VStr type) dbConfig
                    = (url ← lift (makeUrl (read dbConfig "host") (read dbConfig "port"));
                       Go (<[ "url" := url ]> dbConfig)))
      by (destruct Htype as [-> | ->]; reflexivity).
    rewrite Hcase, (read_of_field dbConfig "host" (VStr h) Hhost eq_refl),
      (read_of_field dbConfig "port" port Hfield Hport).
    by rewrite Hmake. }
  split; [exact Hderive |].
  intros sc params Hcred Hparse Hdbtype Herror Hhost Hnonempty Hparam Htruthy Hvalid.
  rewrite (configure_parsed W sc params Hcred Hparse).
  assert (Hkept : ∀ key v, params !! key = Some v → truthy v = true → key ≠ "__proto__" →
            cleaned params !! key = Some v).
  { intros key v Hv Hv' Hkey. rewrite lookup_cleaned, Hv, Hv'.
    apply String.eqb_neq in Hkey. by rewrite Hkey. }
  assert (Hfield : read (cleaned params) "port" = port)
    by (by apply read_cleaned_own).
  unfold validate. rewrite Hfield, Htruthy, Hvalid. cbn [mbind completion_bind].
  rewrite Herror. cbn [lift catching mbind flow_bind]. rewrite Hdbtype.
  apply Hderive; unfold field.
  - rewrite (Hkept "host" (VStr h)); [done | done | | done].
    cbn [truthy]. by apply negb_true_iff, String.eqb_neq.
  - by rewrite (Hkept "port" port).
Qed.

Lemma druid_ksql_url_witness :
  let params : gmap string value :=
    list_to_map [("host", VStr "broker"); ("port", VNum (Int 8082))] in
  configure Sample.world (Sample.obj [("dbType", VStr "druid"); ("dbParams", VObj params)])
  = Go (<[ "url" := VStr "http://broker:8082" ]> (cleaned params)).
Proof.
  intros params.
  destruct (druid_ksql_url Sample.world "druid" "broker" (VNum (Int 8082))
              (or_introl eq_refl) eq_refl)
    as (scheme & host & Hurls).
  cbv zeta in Hurls. destruct Hurls as (_ & Hmake & _ & Hconfigure).
  assert (Hurl : makeUrl (VStr "broker") (VNum (Int 8082))
                 = Normal (VStr "http://broker:8082")) by evaluate.
  rewrite Hurl in Hmake.
  rewrite (Hconfigure (Sample.obj [("dbType", VStr "druid"); ("dbParams", VObj params)]) params
             ltac:(evaluate) ltac:(evaluate) ltac:(evaluate) ltac:(evaluate)
             ltac:(evaluate) ltac:(done) ltac:(evaluate) ltac:(evaluate) ltac:(evaluate)).
  congruence.
Defined.

(** C9. The clickhouse scenario: from the parameters
    [{user: "u", password: "p", host: "h", port: 9000, ssl: true}] the factory
    derives exactly
    [{host: "h", port: 9000, auth: "u:p", protocol: "https:",
      queryOptions: {database: "default"}}],
    and this is the object the driver class is constructed with. *)
Theorem clickhouse_scenario (W : World) :
  configure W Sample.clickhouse_context = Go Sample.clickhouse_config
  ∧ (∀ (package module : value) (class : string),
       DriverDependencies W !! "clickhouse" = Some package →
       import_module W (toString package) = Normal module →
       own module "default" = VFun class →
       construct W class (VObj Sample.clickhouse_config) = Normal tt →
       driverFactory W Sample.clickhouse_context
       = Normal (Driver class (VObj Sample.clickhouse_config))).
Proof.
  assert (Hconfigure : configure W Sample.clickhouse_context = Go Sample.clickhouse_config)
    by evaluate.
  split; [exact Hconfigure |].
  intros package module class Hpackage Himport Hdefault Hconstruct.
  unfold driverFactory. rewrite Hconfigure. cbn [mbind flow_bind].
  replace (own (or_else Sample.clickhouse_context (VObj ∅)) "dbType")
    with (VStr "clickhouse") by evaluate.
  unfold loadDriver.
  replace (own (VObj (DriverDependencies W)) (toString (VStr "clickhouse"))) with package
    by (unfold own; cbn [toString]; by rewrite Hpackage).
  rewrite Himport.
  replace (is_string (VStr "clickhouse") "druid") with false by evaluate.
  replace (is_string (VStr "clickhouse") "databricks-jdbc") with false by evaluate.
  cbn [lift mbind flow_bind catching].
  assert (Hmember : member module "default" = Normal (VFun class)).
  { unfold member. rewrite <- Hdefault. by destruct module. }
  rewrite Hmember. cbn [lift mbind flow_bind new]. rewrite Hconstruct. done.
Qed.

Lemma clickhouse_scenario_witness :
  driverFactory Sample.world Sample.clickhouse_context
  = Normal (Driver "ClickHouseDriver" (VObj Sample.clickhouse_config)).
Proof.
  apply (proj2 (clickhouse_scenario Sample.world)
           (VStr "@cubejs-backend/clickhouse-driver") (Sample.package "ClickHouseDriver"));
    evaluate.
Defined.

Lemma field_insert_eq (m : gmap string value) (key : string) (v : value) :
  field (<[ key := v ]> m) key = v.
Proof. unfold field. by rewrite lookup_insert_eq. Qed.

(** The elasticsearch case leaves every own field alone but [auth], [url]
    and [queryFormat], and the object it builds has no prototype of its
    own. *)
Lemma lookup_elasticsearch_case (dbConfig : gmap string value) (key : string) :
  key ≠ "auth" → key ≠ "url" → key ≠ "queryFormat" →
  elasticsearch_case dbConfig !! key = own_fields dbConfig !! key.
Proof.
  intros Hauth Hurl Hformat. unfold elasticsearch_case. cbv zeta.
  destruct (_ && _); by rewrite !lookup_insert_ne.
Qed.

Lemma read_own_fields (dbConfig : gmap string value) (key : string) :
  key ≠ "__proto__" → read (own_fields dbConfig) key = field dbConfig key.
Proof.
  intros Hkey. unfold read, field, own_fields.
  rewrite lookup_delete_eq, lookup_delete_ne by done. by destruct (dbConfig !! key).
Qed.

Lemma read_elasticsearch_case (dbConfig : gmap string value) (key : string) :
  key ≠ "auth" → key ≠ "url" → key ≠ "queryFormat" → key ≠ "__proto__" →
  read (elasticsearch_case dbConfig) key = field dbConfig key.
Proof.
  intros Hauth Hurl Hformat Hproto. rewrite <- (read_own_fields dbConfig key Hproto).
  unfold read. by rewrite !lookup_elasticsearch_case.
Qed.

(** C5, as the code has it.  For the type elasticsearch the dispatch runs the
    elasticsearch case and then, there being no [break], the snowflake case:
    [auth] is the nested object of username and password, with the [apiKey]
    sub-object exactly when both [apiId] and [apiKey] are set, and the
    configuration also receives [account], composed as for snowflake.  For a
    datasource with a url, a user name and a password, [account] is ["-"]. *)
Theorem elasticsearch_falls_through (W : World) (dbConfig : gmap string value) :
  let basic : gmap string value :=
    <[ "password" := read dbConfig "password" ]> {[ "username" := read dbConfig "username" ]} in
  let apiKey : value :=
    VObj (<[ "api_key" := field dbConfig "apiKey" ]> {[ "id" := field dbConfig "apiId" ]}) in
  deriveConfig W (VStr "elasticsearch") dbConfig
    = Go (snowflake_case (elasticsearch_case dbConfig))
  ∧ field (elasticsearch_case dbConfig) "auth"
    = VObj (if truthy (field dbConfig "apiId") && truthy (field dbConfig "apiKey")
            then <[ "apiKey" := apiKey ]> basic else basic)
  ∧ snowflake_case (elasticsearch_case dbConfig) !! "account"
    = Some (VStr (join "-" [field dbConfig "orgId"; field dbConfig "accountId"]))
  ∧ configure W Sample.elasticsearch_context = Go Sample.elasticsearch_config
  ∧ Sample.elasticsearch_config !! "account" = Some (VStr "-").
Proof.
  intros basic apiKey. split; [reflexivity |]. split; [| split; [| split; evaluate]].
  - unfold elasticsearch_case. cbv zeta.
    set (built := <[ "auth" := _ ]> (<[ "url" := _ ]> (<[ "queryFormat" := _ ]> _))).
    assert (Hread : ∀ key, key ≠ "auth" → key ≠ "url" → key ≠ "queryFormat" →
              key ≠ "__proto__" → read built key = field dbConfig key).
    { intros key ? ? ? ?. rewrite <- (read_own_fields dbConfig key) by done.
      unfold read, built. by rewrite !lookup_insert_ne. }
    assert (Hauth : read built "auth" = VObj basic).
    { unfold read, built. by rewrite lookup_insert_eq. }
    rewrite !(Hread "apiId"), !(Hread "apiKey"), Hauth by done.
    destruct (_ && _); unfold built; rewrite field_insert_eq; reflexivity.
  - unfold snowflake_case. cbv zeta. rewrite lookup_insert_eq.
    by rewrite !read_elasticsearch_case.
Qed.

(** C1 fails on the code: the mssql case reads an identifier the module does
    not define when the parameters hold no usable port, and the druid and
    ksql cases call a method on the host without a check; neither is inside a
    [try], so the factory raises instead of returning the error handle. *)
Theorem driverFactory_raises (W : World) :
  driverFactory W Sample.mssql_context
    = Throw (VErr "ReferenceError" "MSSQL_DEFAULT_PORT is not defined")
  ∧ driverFactory W Sample.druid_context
    = Throw (VErr "TypeError" "Cannot read properties of undefined (reading 'startsWith')").
Proof. split; evaluate. Qed.

(** What the factory does guard: the operations of the error handle throw
    the carried message, an unparseable key file and a failing [import()]
    give the error handle. *)
Lemma driverError_operations (W : World) (err : value) :
  tablesSchema W (driverError err) = Throw (new_Error (or_else (own err "message") err))
  ∧ testConnection W (driverError err) = Throw (new_Error (or_else (own err "message") err)).
Proof. split; reflexivity. Qed.

Lemma deriveConfig_bigquery_unparseable (W : World) (dbConfig : gmap string value)
    (e : value) :
  JSON_parse W (toString (read dbConfig "keyFile")) = Throw e →
  deriveConfig W (VStr "bigquery") dbConfig = Return (driverError e).
Proof.
  intros Hparse.
  change (deriveConfig W (VStr "bigquery") dbConfig)
    with (keyFile ← catching (lift (JSON_parse W (toString (read dbConfig "keyFile"))));
          Go (<[ "credentials" := VObj (spread_props keyFile) ]> (own_fields dbConfig))).
  by rewrite Hparse.
Qed.

Lemma driverFactory_import_failure (W : World) (sc : value) (dbConfig : gmap string value)
    (e : value) :
  let type := own (or_else sc (VObj ∅)) "dbType" in
  configure W sc = Go dbConfig →
  import_module W (toString (own (VObj (DriverDependencies W)) (toString type))) = Throw e →
  driverFactory W sc = Normal (driverError e).
Proof.
  intros type Hconfigure Himport. unfold driverFactory. rewrite Hconfigure.
  cbn [mbind flow_bind]. fold type. unfold loadDriver. by rewrite Himport.
Qed.

(** * Further properties *)

(** ** The auth gate: the other outcomes *)

(** X1. A token that verifies but whose payload holds no [dataSourceId] (or
    is empty) leaves the error context "Provide dataSourceId" and returns
    [null]; the credential store is not consulted, so this holds whatever the
    store would answer. *)
Theorem setupAuthInfo_no_dataSourceId (W : World) (req : Request) (auth decoded : value) :
  jwt_verify W (field (headers req) "authorization") (CUBEJS_SECRET W) = Normal decoded →
  truthy (own (or_else decoded (VObj ∅)) "dataSourceId") = false →
  setupAuthInfo W req auth
  = Normal ({| headers := headers req;
               securityContext := VObj {[ "error" := VStr "Provide dataSourceId" ]} |}, VNull).
Proof.
  intros Hverify Hid. unfold setupAuthInfo. rewrite Hverify. cbv zeta. by rewrite Hid.
Qed.

Lemma setupAuthInfo_no_dataSourceId_witness :
  setupAuthInfo (Cases.decoded_world (Sample.obj [("userId", VStr "u1")]))
    (Sample.request "t") VUndef
  = Normal ({| headers := headers (Sample.request "t");
               securityContext := VObj {[ "error" := VStr "Provide dataSourceId" ]} |}, VNull).
Proof.
  apply (setupAuthInfo_no_dataSourceId _ _ _ (Sample.obj [("userId", VStr "u1")])); evaluate.
Defined.



(** X3. On success the context is the merge of three sources, the later
    winning: the identity fields [dataSourceId], [userId], [authToken], then
    the permissions, then the fields [buildSecurityContext] derives from the
    record.  A field of the builder is in the context as the builder has it;
    a field of the permissions is, unless the builder has one of that name;
    an identity field is, unless either has one; and the context has no other
    field.  The call returns [undefined] and leaves the headers alone. *)
Theorem setupAuthInfo_success_merge (W : World) (req : Request)
    (auth decoded dataSource permissions : value) :
  let dataSourceId := own (or_else decoded (VObj ∅)) "dataSourceId" in
  let userId := own (or_else decoded (VObj ∅)) "userId" in
  let authToken := field (headers req) "x-hasura-authorization" in
  let built := spread_props (buildSecurityContext W dataSource) in
  let granted := spread_props permissions in
  jwt_verify W (field (headers req) "authorization") (CUBEJS_SECRET W) = Normal decoded →
  truthy dataSourceId = true →
  findDataSource W dataSourceId authToken = Normal dataSource →
  getPermissions W userId = Normal permissions →
  truthy (own dataSource "id") = true →
  ∃ context : gmap string value,
    setupAuthInfo W req auth
    = Normal ({| headers := headers req; securityContext := VObj context |}, VUndef)
    ∧ (∀ key v, built !! key = Some v → context !! key = Some v)
    ∧ (∀ key, built !! key = None → is_Some (granted !! key) →
         context !! key = granted !! key)
    ∧ (∀ key, built !! key = None → granted !! key = None →
         context !! key
         = if decide (key = "authToken") then Some authToken
           else if decide (key = "userId") then Some userId
           else if decide (key = "dataSourceId") then Some dataSourceId
           else None).
Proof.
  intros dataSourceId userId authToken built granted Hverify Hid Hfind Hperm Hfound.
  eexists. unfold setupAuthInfo. rewrite Hverify. cbv zeta.
  fold dataSourceId userId authToken. rewrite Hid, Hfind. cbn [negb mbind completion_bind].
  rewrite Hperm. cbn [mbind completion_bind]. rewrite Hfound. cbn [negb].
  fold built granted. split; [reflexivity |]. split; [| split].
  - intros key v Hbuilt. by apply lookup_union_Some_l.
  - intros key Hbuilt [v Hgranted]. rewrite lookup_union_r by done.
    rewrite Hgranted. by apply lookup_union_Some_l.
  - intros key Hbuilt Hgranted. rewrite !lookup_union_r by done.
    repeat case_decide; subst; simplify_map_eq; done.
Qed.

Lemma setupAuthInfo_success_merge_witness :
  ∃ context : gmap string value,
    setupAuthInfo Sample.world (Sample.request "good") VUndef
    = Normal ({| headers := headers (Sample.request "good");
                 securityContext := VObj context |}, VUndef)
    ∧ context !! "dbType" = Some (VStr "postgres")
    ∧ context !! "role" = Some (VStr "member")
    ∧ context !! "userId" = Some (VStr "u1").
Proof.
  destruct (setupAuthInfo_success_merge Sample.world (Sample.request "good") VUndef
              (Sample.obj [("dataSourceId", VStr "ds1"); ("userId", VStr "u1")])
              (Sample.obj [("id", VStr "ds1")]) Sample.restricted
              ltac:(evaluate) ltac:(evaluate) ltac:(evaluate) ltac:(evaluate) ltac:(evaluate))
    as (context & Hrun & Hbuilt & Hgranted & Hidentity).
  exists context. split; [exact Hrun |]. split; [| split].
  - apply Hbuilt. evaluate.
  - rewrite Hgranted; [evaluate | evaluate |]. exists (VStr "member"). evaluate.
  - rewrite Hidentity; [evaluate | evaluate | evaluate].
Defined.

(** What [setupAuthInfo] leaves when it returns [null]: an error context. *)
Lemma setupAuthInfo_null (W : World) (req req' : Request) (auth : value) :
  setupAuthInfo W req auth = Normal (req', VNull) →
  headers req' = headers req ∧ ∃ e, securityContext req' = VObj {[ "error" := e ]}.
Proof.
  unfold setupAuthInfo, pushError, member.
  destruct (jwt_verify W _ _) as [decoded|err].
  - cbv zeta. destruct (truthy (own (or_else decoded (VObj ∅)) "dataSourceId")); cbn [negb].
    + destruct (findDataSource W _ _) as [dataSource|e]; cbn [mbind completion_bind]; [|done].
      destruct (getPermissions W _) as [permissions|e]; cbn [mbind completion_bind]; [|done].
      destruct (truthy (own dataSource "id")); cbn [negb]; [done |].
      intros [= <-]. eauto.
    + intros [= <-]. eauto.
  - destruct (nullish err); cbn [mbind completion_bind]; [done |].
    intros [= <-]. eauto.
Qed.



(** X5. After a failed authentication the context holds the error only, so
    the driver factory finds no [dbParams]: it returns the error handle of
    the missing credentials, and the operations of that handle throw
    "Datasource credentials not found or incorrect" while the reason the
    gate recorded is not in it; the database type of such a context is
    ["none"]. *)
Theorem driverFactory_after_failed_auth (W : World) (req req' : Request) (auth : value) :
  setupAuthInfo W req auth = Normal (req', VNull) →
  driverFactory W (securityContext req') = Normal (driverError credentials_missing)
  ∧ testConnection W (driverError credentials_missing)
    = Throw (VErr "Error" "Datasource credentials not found or incorrect")
  ∧ tablesSchema W (driverError credentials_missing)
    = Throw (VErr "Error" "Datasource credentials not found or incorrect")
  ∧ dbType (securityContext req') = VStr "none".
Proof.
  intros Hauth. apply setupAuthInfo_null in Hauth as [_ [e ->]].
  assert (Hown : ∀ key, key ≠ "error" → own (VObj {[ "error" := e ]}) key = VUndef).
  { intros key Hkey. cbn [own]. by rewrite lookup_singleton_ne. }
  split; [| split; [evaluate | split; [evaluate |]]].
  - unfold driverFactory, configure.
    change (or_else (VObj {[ "error" := e ]}) (VObj ∅)) with (VObj {[ "error" := e ]}).
    rewrite !Hown by done. reflexivity.
  - unfold dbType. by rewrite Hown.
Qed.

Lemma driverFactory_after_failed_auth_witness :
  let req' := {| headers := headers (Sample.request "forged");
                 securityContext := VObj {[ "error" := VStr "invalid signature" ]} |} in
  setupAuthInfo Sample.world (Sample.request "forged") VUndef = Normal (req', VNull)
  ∧ driverFactory Sample.world (securityContext req') = Normal (driverError credentials_missing)
  ∧ dbType (securityContext req') = VStr "none".
Proof.
  intros req'. split; [evaluate |].
  destruct (driverFactory_after_failed_auth Sample.world (Sample.request "forged") req'
              VUndef ltac:(evaluate)) as (Hfactory & _ & _ & Htype).
  by split.
Defined.

(** ** The driver factory: credentials, parsing and validation *)

Lemma configure_reaches (W : World) (sc : value) (params : gmap string value) :
  reaches_dispatch W sc params →
  configure W sc = deriveConfig W (own (or_else sc (VObj ∅)) "dbType") (cleaned params).
Proof.
  intros (Hcred & Hparse & Hvalid).
  rewrite (configure_parsed W sc params Hcred Hparse). by rewrite Hvalid.
Qed.

Lemma keys_empty (m : gmap string value) :
  map fst (map_to_list m) = [] ↔ m = ∅.
Proof.
  split.
  - intros Hkeys. apply map_to_list_empty_iff.
    by destruct (map_to_list m).
  - intros ->. by rewrite map_to_list_empty.
Qed.

(** X6. Without usable [dbParams] the factory returns the error handle of
    the missing credentials at once: when the context is missing or is not
    an object, when [dbParams] is falsy (absent, [null], the empty string) or
    has no keys (the empty object or array, a number, [true]).  Nothing else
    in the context is looked at, an [error] it may carry included. *)
Theorem driverFactory_no_credentials (W : World) (sc : value) :
  let dbParams := own (or_else sc (VObj ∅)) "dbParams" in
  truthy dbParams = false ∨ Object_keys dbParams = Normal [] →
  driverFactory W sc = Normal (driverError credentials_missing)
  ∧ testConnection W (driverError credentials_missing)
    = Throw (VErr "Error" "Datasource credentials not found or incorrect").
Proof.
  intros dbParams Hmissing. split; [| evaluate].
  unfold driverFactory, configure. cbv zeta. fold dbParams.
  unfold checkCredentials. destruct Hmissing as [Hfalsy | Hkeys].
  - by rewrite Hfalsy.
  - destruct (truthy dbParams); [| done]. by rewrite Hkeys.
Qed.

Lemma driverFactory_no_credentials_witness :
  driverFactory Sample.world VUndef = Normal (driverError credentials_missing)
  ∧ driverFactory Sample.world
      (Sample.obj [("dbType", VStr "postgres"); ("dbParams", Sample.obj []);
                   ("error", VStr "Provide dataSourceId")])
    = Normal (driverError credentials_missing).
Proof.
  split.
  - apply (driverFactory_no_credentials Sample.world VUndef). left. evaluate.
  - apply (driverFactory_no_credentials Sample.world
             (Sample.obj [("dbType", VStr "postgres"); ("dbParams", Sample.obj []);
                          ("error", VStr "Provide dataSourceId")])).
    right. evaluate.
Defined.

(** X7. Parameters that pass the credentials check are a string or an
    object: the third branch of the type test (lines 135-139, "Invalid
    dbParams type") is never taken, numbers and booleans having been turned
    away for having no keys. *)
Theorem parseDbParams_type (W : World) (dbParams : value) :
  checkCredentials dbParams = Go tt →
  (typeof dbParams = "string" ∨ typeof dbParams = "object")
  ∧ parseDbParams W dbParams
    = if String.eqb (typeof dbParams) "string"
      then catching (lift (JSON_parse W (toString dbParams)))
      else Go dbParams.
Proof.
  unfold checkCredentials, parseDbParams.
  destruct dbParams as [| |[]|[z|]|s|xs|m|name message|id]; try done; cbn [truthy negb].
  - destruct (negb (z =? 0)); done.
  - intros _. split; [by left | done].
  - intros _. split; [by right | done].
  - intros _. split; [by right | done].
Qed.

Lemma parseDbParams_type_witness :
  (typeof (VStr "{}") = "string" ∨ typeof (VStr "{}") = "object")
  ∧ parseDbParams Sample.world (VStr "{}")
    = if String.eqb (typeof (VStr "{}")) "string"
      then catching (lift (JSON_parse Sample.world (toString (VStr "{}"))))
      else Go (VStr "{}").
Proof. apply (parseDbParams_type Sample.world (VStr "{}")). evaluate. Defined.




(** X9. Parameters given as a JSON string and the same parameters given as
    the object the string parses to configure the driver alike, for a
    mapping that is not empty.  For the empty mapping they differ: the object
    [{}] is turned away for missing credentials, the string for it is not
    (a string has keys, its characters) and goes on with an empty
    configuration. *)
Theorem configure_string_or_object (W : World) (context : gmap string value)
    (s : string) (params : gmap string value) :
  let as_string := VObj (<[ "dbParams" := VStr s ]> context) in
  let as_object := VObj (<[ "dbParams" := VObj params ]> context) in
  JSON_parse W s = Normal (VObj params) →
  s ≠ "" →
  (params ≠ ∅ →
   configure W as_string = configure W as_object
   ∧ driverFactory W as_string = driverFactory W as_object)
  ∧ (params = ∅ →
     driverFactory W as_object = Normal (driverError credentials_missing)
     ∧ configure W as_string
       = (_ ← validate W ∅ (field context "error");
          deriveConfig W (field context "dbType") ∅)).
Proof.
  intros as_string as_object Hparse Hnonempty.
  assert (Hs : ∀ key, key ≠ "dbParams" →
                 own (or_else as_string (VObj ∅)) key = field context key).
  { intros key Hkey. cbn [or_else truthy as_string own]. unfold field.
    by rewrite lookup_insert_ne. }
  assert (Ho : ∀ key, key ≠ "dbParams" →
                 own (or_else as_object (VObj ∅)) key = field context key).
  { intros key Hkey. cbn [or_else truthy as_object own]. unfold field.
    by rewrite lookup_insert_ne. }
  assert (Hsp : own (or_else as_string (VObj ∅)) "dbParams" = VStr s).
  { cbn [or_else truthy as_string own]. by rewrite lookup_insert_eq. }
  assert (Hop : own (or_else as_object (VObj ∅)) "dbParams" = VObj params).
  { cbn [or_else truthy as_object own]. by rewrite lookup_insert_eq. }
  assert (Hcred : checkCredentials (VStr s) = Go tt).
  { unfold checkCredentials. cbn [truthy Object_keys].
    destruct s as [|a s]; [done |]. reflexivity. }
  assert (Hparsed : parseDbParams W (VStr s) = Go (VObj params)).
  { unfold parseDbParams. cbn [typeof toString].
    replace (String.eqb "string" "string") with true by evaluate. by rewrite Hparse. }
  assert (Hstring : configure W as_string
                    = (_ ← validate W (cleaned params) (field context "error");
                       deriveConfig W (field context "dbType") (cleaned params))).
  { rewrite (configure_parsed W as_string params); rewrite ?Hsp; [| done | done].
    by rewrite !Hs. }
  split.
  - intros Hparams.
    assert (Hobject : configure W as_object = configure W as_string).
    { rewrite Hstring. rewrite (configure_parsed W as_object params); rewrite ?Hop.
      - by rewrite !Ho.
      - unfold checkCredentials. cbn [truthy Object_keys negb lift mbind completion_bind].
        rewrite bool_decide_eq_false_2; [done |].
        rewrite length_zero_iff_nil, keys_empty. done.
      - reflexivity. }
    split; [done |]. unfold driverFactory. by rewrite Hobject, Hs, Ho.
  - intros ->. split.
    + apply driverFactory_no_credentials. right. fold as_object. rewrite Hop.
      cbn [Object_keys]. by rewrite map_to_list_empty.
    + rewrite Hstring. unfold cleaned. by rewrite map_filter_empty.
Qed.

Lemma configure_string_or_object_witness :
  let context : gmap string value := {[ "dbType" := VStr "postgres" ]} in
  (driverFactory Cases.parsing_world (VObj (<[ "dbParams" := VStr Cases.host_json ]> context))
   = driverFactory Cases.parsing_world
       (VObj (<[ "dbParams" := VObj {[ "host" := VStr "h" ]} ]> context)))
  ∧ driverFactory Sample.world (VObj (<[ "dbParams" := VObj ∅ ]> context))
    = Normal (driverError credentials_missing)
  ∧ configure Sample.world (VObj (<[ "dbParams" := VStr "{}" ]> context))
    = (_ ← validate Sample.world ∅ (field context "error");
       deriveConfig Sample.world (field context "dbType") ∅).
Proof.
  intros context. split.
  - assert (Hparse : JSON_parse Cases.parsing_world Cases.host_json
                     = Normal (VObj {[ "host" := VStr "h" ]})) by evaluate.
    apply (proj1 (configure_string_or_object Cases.parsing_world context Cases.host_json
                    _ Hparse ltac:(done))).
    intros Hempty. apply (f_equal (λ m : gmap string value, m !! "host")) in Hempty.
    by rewrite lookup_singleton_eq, lookup_empty in Hempty.
  - apply (proj2 (configure_string_or_object Sample.world context "{}" ∅
                    ltac:(evaluate) ltac:(done))).
    reflexivity.
Defined.

(** X10. Parameters given as a string that does not parse: the factory
    returns the error handle that carries what [JSON.parse] threw, whatever
    the type and whatever else the context holds. *)
Theorem driverFactory_unparseable_params (W : World) (sc : value) (s : string) (e : value) :
  own (or_else sc (VObj ∅)) "dbParams" = VStr s →
  s ≠ "" →
  JSON_parse W s = Throw e →
  driverFactory W sc = Normal (driverError e).
Proof.
  intros Hparams Hnonempty Hparse. unfold driverFactory, configure. cbv zeta.
  rewrite Hparams.
  assert (Hcred : checkCredentials (VStr s) = Go tt).
  { unfold checkCredentials. cbn [truthy Object_keys].
    destruct s as [|a s]; [done |]. reflexivity. }
  rewrite Hcred. unfold parseDbParams. cbn [typeof toString mbind flow_bind].
  replace (String.eqb "string" "string") with true by evaluate. by rewrite Hparse.
Qed.

Lemma driverFactory_unparseable_params_witness :
  driverFactory Sample.world (Sample.obj [("dbType", VStr "postgres"); ("dbParams", VStr "{")])
  = Normal (driverError (VErr "SyntaxError" "Unexpected token in JSON")).
Proof.
  apply (driverFactory_unparseable_params Sample.world _ "{"); [evaluate | done | evaluate].
Defined.

(** X26. The name [__proto__] in the parameters never becomes a field of
    the configuration.  When the parameters hold an object under that name,
    the cleaning makes it the prototype of [dbConfig]: the fields of
    [dbConfig] are the other truthy fields of the parameters, and every name
    under which the parameters hold nothing truthy is read from that object
    ([dbConfig.port], [dbConfig.host] and the like).  When they hold anything
    else under that name, it is as if the name were not there. *)
Theorem cleanDbParams_prototype (params : gmap string value) (prototype : value) :
  params !! "__proto__" = Some prototype →
  (object_like prototype = true →
   ∃ dbConfig,
     cleanDbParams (VObj params) = Normal dbConfig
     ∧ dbConfig !! "__proto__" = Some prototype
     ∧ cleanDbParams (VObj (delete "__proto__" params)) = Normal (own_fields dbConfig)
     ∧ ∀ key, key ≠ "__proto__" →
         read dbConfig key
         = if truthy (field params key) then field params key else own prototype key)
  ∧ (object_like prototype = false →
     cleanDbParams (VObj params) = cleanDbParams (VObj (delete "__proto__" params))).
Proof.
  intros Hproto. split.
  - intros Hobject. exists (cleaned params). split; [apply cleanDbParams_obj |].
    assert (Hlink : cleaned params !! "__proto__" = Some prototype).
    { rewrite lookup_cleaned, Hproto, Hobject.
      by destruct prototype. }
    split; [exact Hlink |]. split.
    + rewrite cleanDbParams_obj. f_equal. apply map_eq. intros key.
      unfold own_fields. rewrite !lookup_cleaned, !lookup_delete.
      case_decide as Hkey; [by subst |]. by rewrite lookup_cleaned.
    + intros key Hkey. unfold read, field. rewrite Hlink, lookup_cleaned.
      apply String.eqb_neq in Hkey. rewrite Hkey.
      destruct (params !! key) as [v|]; simpl; [| done].
      by destruct (truthy v).
  - intros Hobject. rewrite !cleanDbParams_obj. f_equal. apply map_eq. intros key.
    rewrite !lookup_cleaned, lookup_delete.
    case_decide as Hkey; [| done]. subst key. rewrite Hproto, Hobject.
    by rewrite andb_false_r.
Qed.

Lemma cleanDbParams_prototype_witness :
  ∃ dbConfig,
    cleanDbParams (VObj (Sample.inheriting_params [("host", VStr "h"); ("port", VNum (Int 0))]
                           [("port", VNum (Int 70000))]))
      = Normal dbConfig
    ∧ dbConfig !! "__proto__" = Some (Sample.obj [("port", VNum (Int 70000))])
    ∧ read dbConfig "port" = VNum (Int 70000)
    ∧ read dbConfig "host" = VStr "h".
Proof.
  destruct (cleanDbParams_prototype
              (Sample.inheriting_params [("host", VStr "h"); ("port", VNum (Int 0))]
                 [("port", VNum (Int 70000))])
              (Sample.obj [("port", VNum (Int 70000))]) ltac:(evaluate))
    as [Hobject _].
  destruct (Hobject eq_refl) as (dbConfig & Hclean & Hlink & _ & Hread).
  exists dbConfig. split; [exact Hclean |]. split; [exact Hlink |]. split.
  - rewrite (Hread "port"); [evaluate | done].
  - rewrite (Hread "host"); [evaluate | done].
Defined.

(** ** The driver factory: the cases of the dispatch *)

(** X11. For the type bigquery the key file decides, the one
    [dbConfig.keyFile] reads after the cleaning: when it does not parse the
    factory returns the error handle that carries the parse error, and when
    it parses the configuration is the own fields of the cleaned parameters
    (the [keyFile] string among them, if it is one) plus [credentials], a
    copy of the parsed document. *)
Theorem bigquery_key_file (W : World) (sc : value) (params : gmap string value) :
  let keyFile := read (cleaned params) "keyFile" in
  reaches_dispatch W sc params →
  own (or_else sc (VObj ∅)) "dbType" = VStr "bigquery" →
  (∀ e, JSON_parse W (toString keyFile) = Throw e →
     driverFactory W sc = Normal (driverError e))
  ∧ (∀ document, JSON_parse W (toString keyFile) = Normal document →
       configure W sc
       = Go (<[ "credentials" := VObj (spread_props document) ]>
               (own_fields (cleaned params)))).
Proof.
  intros keyFile Hreach Htype.
  pose proof (configure_reaches W sc params Hreach) as Hconfigure.
  rewrite Htype in Hconfigure.
  change (deriveConfig W (VStr "bigquery") (cleaned params))
    with (document ← catching (lift (JSON_parse W (toString keyFile)));
          Go (<[ "credentials" := VObj (spread_props document) ]>
                (own_fields (cleaned params))))
    in Hconfigure.
  split.
  - intros e Hparse. unfold driverFactory. rewrite Hconfigure, Hparse. reflexivity.
  - intros document Hparse. rewrite Hconfigure, Hparse. reflexivity.
Qed.

Lemma bigquery_key_file_witness :
  driverFactory Sample.world (Sample.context "bigquery" [("keyFile", VStr "{")])
    = Normal (driverError (VErr "SyntaxError" "Unexpected token in JSON"))
  ∧ configure Sample.world (Sample.context "bigquery" [("keyFile", VStr "{}")])
    = Go (<[ "credentials" := VObj (spread_props (VObj ∅)) ]>
            (own_fields (cleaned {[ "keyFile" := VStr "{}" ]})))
  ∧ configure Sample.world (Sample.inheriting "bigquery" [("host", VStr "h")] [("keyFile", VStr "{}")])
    = Go (list_to_map [("host", VStr "h"); ("credentials", VObj ∅)]).
Proof.
  split; [| split].
  - apply (proj1 (bigquery_key_file Sample.world
                    (Sample.context "bigquery" [("keyFile", VStr "{")])
                    (<[ "keyFile" := VStr "{" ]> ∅)
                    ltac:(repeat split; evaluate) ltac:(evaluate))).
    evaluate.
  - apply (proj2 (bigquery_key_file Sample.world
                    (Sample.context "bigquery" [("keyFile", VStr "{}")])
                    (<[ "keyFile" := VStr "{}" ]> ∅)
                    ltac:(repeat split; evaluate) ltac:(evaluate))).
    evaluate.
  - etransitivity.
    + apply (proj2 (bigquery_key_file Sample.world
                      (Sample.inheriting "bigquery" [("host", VStr "h")] [("keyFile", VStr "{}")])
                      (Sample.inheriting_params [("host", VStr "h")] [("keyFile", VStr "{}")])
                      ltac:(repeat split; evaluate) ltac:(evaluate)) (VObj ∅)).
      evaluate.
    + evaluate.
Defined.

(** X12. For the type mssql everything hangs on [parseInt] of the port, the
    one [dbConfig.port] reads after the cleaning: when it is a number other
    than zero the configuration is the own fields of the cleaned parameters
    with [server], the host, and [port], that number (a port given as a
    string becomes a number); when it is [NaN] or zero the factory raises
    the ReferenceError of the undefined default, and it always is when no
    port is read. *)
Theorem mssql_port (W : World) (sc : value) (params : gmap string value) :
  let parsed := VNum (parseInt (read (cleaned params) "port")) in
  reaches_dispatch W sc params →
  own (or_else sc (VObj ∅)) "dbType" = VStr "mssql" →
  (truthy parsed = true →
   configure W sc
   = Go (<[ "port" := parsed ]>
           (<[ "server" := read (cleaned params) "host" ]> (own_fields (cleaned params)))))
  ∧ (truthy parsed = false →
     driverFactory W sc = Throw (VErr "ReferenceError" "MSSQL_DEFAULT_PORT is not defined"))
  ∧ (read (cleaned params) "port" = VUndef → truthy parsed = false).
Proof.
  intros parsed Hreach Htype.
  pose proof (configure_reaches W sc params Hreach) as Hconfigure.
  rewrite Htype in Hconfigure.
  change (deriveConfig W (VStr "mssql") (cleaned params))
    with (port ← lift (if truthy parsed then Normal parsed else MSSQL_DEFAULT_PORT);
          Go (<[ "port" := port ]>
                (<[ "server" := read (cleaned params) "host" ]>
                   (own_fields (cleaned params)))))
    in Hconfigure.
  split; [| split].
  - intros Htruthy. by rewrite Hconfigure, Htruthy.
  - intros Hfalsy. unfold driverFactory. by rewrite Hconfigure, Hfalsy.
  - intros Hport. unfold parsed. rewrite Hport. evaluate.
Qed.

Lemma mssql_port_witness :
  configure Sample.world (Sample.context "mssql" [("host", VStr "h"); ("port", VStr "1433")])
  = Go (<[ "port" := VNum (Int 1433) ]>
          (<[ "server" := VStr "h" ]>
             (own_fields (cleaned (list_to_map [("host", VStr "h"); ("port", VStr "1433")])))))
  ∧ driverFactory Sample.world Sample.mssql_context
    = Throw (VErr "ReferenceError" "MSSQL_DEFAULT_PORT is not defined")
  ∧ configure Sample.world (Sample.inheriting "mssql" [("host", VStr "h")] [("port", VNum (Int 1433))])
    = Go (list_to_map [("host", VStr "h"); ("server", VStr "h"); ("port", VNum (Int 1433))]).
Proof.
  split; [| split].
  - etransitivity.
    + apply (proj1 (mssql_port Sample.world
                      (Sample.context "mssql" [("host", VStr "h"); ("port", VStr "1433")])
                      (list_to_map [("host", VStr "h"); ("port", VStr "1433")])
                      ltac:(repeat split; evaluate) ltac:(evaluate))).
      evaluate.
    + evaluate.
  - apply (proj1 (proj2 (mssql_port Sample.world Sample.mssql_context
                           (list_to_map [("host", VStr "h")])
                           ltac:(repeat split; evaluate) ltac:(evaluate)))).
    evaluate.
  - etransitivity.
    + apply (proj1 (mssql_port Sample.world
                      (Sample.inheriting "mssql" [("host", VStr "h")] [("port", VNum (Int 1433))])
                      (Sample.inheriting_params [("host", VStr "h")] [("port", VNum (Int 1433))])
                      ltac:(repeat split; evaluate) ltac:(evaluate))).
      evaluate.
    + evaluate.
Defined.

Lemma classic_string (v : value) : (∃ s, v = VStr s) ∨ (∀ s, v ≠ VStr s).
Proof. destruct v; eauto; by right. Qed.

(** X13. For the types druid and ksql the configuration is derived exactly
    when the host [dbConfig.host] reads after the cleaning is a string; with
    no host, or a host of another kind, [makeUrl] throws a TypeError that
    nothing catches, and the factory raises it. *)
Theorem druid_ksql_host (W : World) (sc : value) (params : gmap string value)
    (type : string) :
  let host := read (cleaned params) "host" in
  reaches_dispatch W sc params →
  own (or_else sc (VObj ∅)) "dbType" = VStr type →
  type = "druid" ∨ type = "ksql" →
  ((∃ h, host = VStr h) ↔ ∃ dbConfig, configure W sc = Go dbConfig)
  ∧ ((∀ h, host ≠ VStr h) →
     ∃ message, configure W sc = Raise (VErr "TypeError" message)
                ∧ driverFactory W sc = Throw (VErr "TypeError" message)).
Proof.
  intros host Hreach Htype Hkind.
  pose proof (configure_reaches W sc params Hreach) as Hconfigure.
  rewrite Htype in Hconfigure.
  assert (Hcase : deriveConfig W (VStr type) (cleaned params)
                  = (url ← lift (makeUrl host (read (cleaned params) "port"));
                     Go (<[ "url" := url ]> (cleaned params))))
    by (destruct Hkind as [-> | ->]; reflexivity).
  rewrite Hcase in Hconfigure.
  assert (Hraise : (∀ h, host ≠ VStr h) →
            ∃ message, configure W sc = Raise (VErr "TypeError" message)).
  { intros Hhost. rewrite Hconfigure. unfold makeUrl, addHttpPrefix.
    destruct host as [| | | |h| | | |]; try (eexists; reflexivity).
    by destruct (Hhost h). }
  split.
  - split.
    + intros [h Hh]. rewrite Hconfigure, Hh. unfold makeUrl, addHttpPrefix.
      destruct (negb _ && negb _); eexists; reflexivity.
    + intros [dbConfig Hgo].
      destruct (classic_string host) as [Hstring | Hother]; [done |].
      destruct (Hraise Hother) as [message Hmessage]. congruence.
  - intros Hhost. destruct (Hraise Hhost) as [message Hmessage].
    exists message. split; [done |]. unfold driverFactory. by rewrite Hmessage.
Qed.

Lemma druid_ksql_host_witness :
  (∃ message,
     configure Sample.world Sample.druid_context = Raise (VErr "TypeError" message)
     ∧ driverFactory Sample.world Sample.druid_context = Throw (VErr "TypeError" message))
  ∧ ∃ dbConfig,
      configure Sample.world
        (Sample.inheriting "druid" [("port", VNum (Int 8082))] [("host", VStr "h")])
      = Go dbConfig.
Proof.
  split.
  - apply (proj2 (druid_ksql_host Sample.world Sample.druid_context
                    (list_to_map [("port", VNum (Int 8082))]) "druid"
                    ltac:(repeat split; evaluate) ltac:(evaluate) (or_introl eq_refl))).
    intros h. replace (read _ "host") with VUndef by evaluate. done.
  - apply (proj1 (druid_ksql_host Sample.world
                    (Sample.inheriting "druid" [("port", VNum (Int 8082))] [("host", VStr "h")])
                    (Sample.inheriting_params [("port", VNum (Int 8082))] [("host", VStr "h")])
                    "druid"
                    ltac:(repeat split; evaluate) ltac:(evaluate) (or_introl eq_refl))).
    exists "h". evaluate.
Defined.

(** X14. Every case of the dispatch but clickhouse only adds to the
    configuration: when the dispatch derives a configuration, a field whose
    name is none of those the cases assign ([credentials], [server], [port],
    [accessKeyId], [secretAccessKey], [S3OutputLocation], [region],
    [queryFormat], [url], [auth], [account], [connection]) is in it exactly
    as in the cleaned parameters, and no field of the cleaned parameters is
    removed.  The entry [__proto__] of the map is the prototype, not a
    field: the cases that spread the parameters (bigquery, mssql, athena,
    elasticsearch, snowflake) leave it behind, the others keep it. *)
Theorem deriveConfig_keeps_fields (W : World) (type : value)
    (dbConfig derived : gmap string value) :
  deriveConfig W type dbConfig = Go derived →
  is_string type "clickhouse" = false →
  (∀ key, key ∉ derived_keys → key ≠ "__proto__" → derived !! key = dbConfig !! key)
  ∧ (∀ key, key ≠ "__proto__" → is_Some (dbConfig !! key) → is_Some (derived !! key))
  ∧ derived !! "__proto__" = (if spreads type then None else dbConfig !! "__proto__").
Proof.
  intros Hderive Hclickhouse.
  split; [| split; [| by apply (deriveConfig_prototype W)]]; intros key;
    by destruct (deriveConfig_fields W type dbConfig derived key Hderive Hclickhouse)
      as (? & ?).
Qed.

Lemma deriveConfig_keeps_fields_witness :
  let dbConfig : gmap string value :=
    list_to_map [("awsKey", VStr "k"); ("database", VStr "d")] in
  let derived : gmap string value :=
    list_to_map [("awsKey", VStr "k"); ("database", VStr "d"); ("accessKeyId", VStr "k");
                 ("secretAccessKey", VUndef); ("S3OutputLocation", VUndef);
                 ("region", VUndef)] in
  derived !! "database" = dbConfig !! "database" ∧ is_Some (derived !! "awsKey").
Proof.
  intros dbConfig derived.
  destruct (deriveConfig_keeps_fields Sample.world (VStr "athena") dbConfig derived
              ltac:(evaluate) ltac:(evaluate)) as (Hsame & Hkept & _).
  split.
  - apply Hsame; [| discriminate]. unfold derived_keys. rewrite !not_elem_of_cons.
    repeat split; try discriminate. apply not_elem_of_nil.
  - apply Hkept; [discriminate |]. exists (VStr "k"). evaluate.
Defined.

Lemma truthy_nonempty (s : string) : s ≠ "" → truthy (VStr s) = true.
Proof. intros Hs. cbn [truthy]. by apply negb_true_iff, String.eqb_neq. Qed.



(** ** The driver factory: loading and constructing the driver *)

(** X16. A driver constructor that throws: for the type databricks-jdbc the
    construction is inside the [try], and the factory returns the error
    handle carrying what was thrown; for the other types (druid apart, whose
    module is unwrapped first) the construction comes after the [try], and
    the factory raises. *)
Theorem constructor_failure (W : World) (sc : value) (dbConfig : gmap string value)
    (module : value) (class : string) (e : value) :
  let type := own (or_else sc (VObj ∅)) "dbType" in
  configure W sc = Go dbConfig →
  import_module W (toString (own (VObj (DriverDependencies W)) (toString type)))
    = Normal module →
  construct W class (VObj dbConfig) = Throw e →
  (type = VStr "databricks-jdbc" → own module "DatabricksDriver" = VFun class →
   driverFactory W sc = Normal (driverError e))
  ∧ (is_string type "databricks-jdbc" = false → is_string type "druid" = false →
     own module "default" = VFun class →
     driverFactory W sc = Throw e).
Proof.
  intros type Hconfigure Himport Hconstruct.
  assert (Hmember : ∀ key, own module key = VFun class →
                      member module key = Normal (VFun class)).
  { intros key Hkey. unfold member. rewrite <- Hkey. by destruct module. }
  unfold driverFactory. rewrite Hconfigure. cbn [mbind flow_bind]. fold type.
  unfold loadDriver. rewrite Himport. split.
  - intros Htype Hclass. rewrite Htype.
    replace (is_string (VStr "databricks-jdbc") "druid") with false by evaluate.
    replace (is_string (VStr "databricks-jdbc") "databricks-jdbc") with true by evaluate.
    cbn [lift mbind flow_bind]. rewrite (Hmember _ Hclass).
    cbn [lift mbind flow_bind new]. by rewrite Hconstruct.
  - intros Hdatabricks Hdruid Hclass. rewrite Hdatabricks, Hdruid.
    cbn [lift mbind flow_bind catching]. rewrite (Hmember _ Hclass).
    cbn [lift mbind flow_bind new]. by rewrite Hconstruct.
Qed.

Lemma constructor_failure_witness :
  driverFactory Cases.refusing_world
    (Sample.context "databricks-jdbc" [("url", VStr "jdbc:databricks://h")])
  = Normal (driverError (VErr "Error" "connection string missing"))
  ∧ driverFactory Cases.refusing_world (Sample.context "postgres" [("host", VStr "h")])
    = Throw (VErr "Error" "connection string missing").
Proof.
  assert (Hdatabricks : configure Cases.refusing_world
            (Sample.context "databricks-jdbc" [("url", VStr "jdbc:databricks://h")])
          = Go (list_to_map [("url", VStr "jdbc:databricks://h")])) by evaluate.
  assert (Hpostgres : configure Cases.refusing_world
            (Sample.context "postgres" [("host", VStr "h")])
          = Go (list_to_map [("host", VStr "h")])) by evaluate.
  split.
  - apply (proj1 (constructor_failure Cases.refusing_world _ _
                    (Sample.obj [("DatabricksDriver", VFun "DatabricksDriver")])
                    "DatabricksDriver" (VErr "Error" "connection string missing")
                    Hdatabricks ltac:(evaluate) ltac:(evaluate))); evaluate.
  - apply (proj2 (constructor_failure Cases.refusing_world _ _
                    (Sample.package "PostgresDriver")
                    "PostgresDriver" (VErr "Error" "connection string missing")
                    Hpostgres ltac:(evaluate) ltac:(evaluate))); evaluate.
Defined.

(** X17. A driver package that cannot be imported (as for a type tag absent
    from [DriverDependencies], where the specifier is [undefined]): the
    factory returns the error handle carrying the import error, and both
    operations of the handle throw an [Error] with that error's message. *)
Theorem driverFactory_unloadable (W : World) (sc : value) (dbConfig : gmap string value)
    (name message : string) :
  let type := own (or_else sc (VObj ∅)) "dbType" in
  configure W sc = Go dbConfig →
  import_module W (toString (own (VObj (DriverDependencies W)) (toString type)))
    = Throw (VErr name message) →
  message ≠ "" →
  driverFactory W sc = Normal (driverError (VErr name message))
  ∧ testConnection W (driverError (VErr name message)) = Throw (VErr "Error" message)
  ∧ tablesSchema W (driverError (VErr name message)) = Throw (VErr "Error" message).
Proof.
  intros type Hconfigure Himport Hmessage. split.
  - by apply (driverFactory_import_failure W sc dbConfig).
  - unfold testConnection, tablesSchema, driverError, throwError, or_else.
    change (own (VErr name message) "message") with (VStr message).
    rewrite (truthy_nonempty message Hmessage). split; reflexivity.
Qed.

Lemma driverFactory_unloadable_witness :
  driverFactory Sample.world (Sample.context "nosuchdb" [("host", VStr "h")])
  = Normal (driverError (VErr "Error" "Cannot find package 'undefined'"))
  ∧ testConnection Sample.world (driverError (VErr "Error" "Cannot find package 'undefined'"))
    = Throw (VErr "Error" "Cannot find package 'undefined'").
Proof.
  assert (Hconfigure : configure Sample.world (Sample.context "nosuchdb" [("host", VStr "h")])
                       = Go (list_to_map [("host", VStr "h")])) by evaluate.
  destruct (driverFactory_unloadable Sample.world _ _ "Error" "Cannot find package 'undefined'"
              Hconfigure ltac:(evaluate) ltac:(done)) as (Hfactory & Htest & _).
  by split.
Defined.

(** ** The query access filter: what it reads and what it returns *)

(** One step through [queryRewrite]: a case on the completion being bound or
    on the condition being tested. *)
Ltac filter_step :=
  match goal with
  | |- context [mbind _ ?c] => destruct c; cbn [mbind completion_bind]
  | |- context [if ?b then _ else _] => destruct b
  end.

(** X18. The filter never rewrites: whatever the context and the store, a
    call that returns returns the query it was given. *)
Theorem queryRewrite_returns_query (W : World) (query sc result : value) :
  queryRewrite W query sc = Normal result → result = query.
Proof.
  unfold queryRewrite. repeat filter_step; congruence.
Qed.

Lemma queryRewrite_returns_query_witness :
  Sample.query ["a"] ["b"] = Sample.query ["a"] ["b"].
Proof.
  apply (queryRewrite_returns_query Sample.world (Sample.query ["a"] ["b"])
           Sample.member_context). evaluate.
Defined.

(** X19. The filter reads a query through its [dimensions], [measures] and
    [segments] only: two queries that agree on these three properties are
    both returned, or both refused with the same error, whatever else they
    hold (filters, time dimensions, order). *)
Theorem queryRewrite_reads_three_lists (W : World) (query query' sc : value) :
  own query "dimensions" = own query' "dimensions" →
  own query "measures" = own query' "measures" →
  own query "segments" = own query' "segments" →
  (queryRewrite W query sc = Normal query ∧ queryRewrite W query' sc = Normal query')
  ∨ (∃ e, queryRewrite W query sc = Throw e ∧ queryRewrite W query' sc = Throw e).
Proof.
  intros Hdimensions Hmeasures Hsegments.
  assert (Hnames : getColumnsArray query = getColumnsArray query').
  { unfold getColumnsArray. by rewrite Hdimensions, Hmeasures, Hsegments. }
  unfold queryRewrite. rewrite Hnames. repeat filter_step; eauto.
Qed.

Lemma queryRewrite_reads_three_lists_witness :
  let filtered :=
    Sample.obj [("dimensions", VArr [VStr "a"]); ("measures", VArr [VStr "b"]);
                ("filters", VArr [Sample.obj [("member", VStr "secret")]])] in
  queryRewrite Sample.world filtered Sample.member_context = Normal filtered.
Proof.
  intros filtered.
  destruct (queryRewrite_reads_three_lists Sample.world (Sample.query ["a"] ["b"]) filtered
              Sample.member_context ltac:(evaluate) ltac:(evaluate) ltac:(evaluate))
    as [[_ Hpass] | [e [Hrefused _]]]; [exact Hpass |].
  exfalso. revert Hrefused. replace (queryRewrite _ _ _) with
    (Normal (A := value) (Sample.query ["a"] ["b"])) by evaluate. done.
Defined.

(** X20. A context that carries a config is judged on it alone: the store
    is not asked, so the outcome is the same in any two worlds, whatever
    permissions their stores hold for the user. *)
Theorem queryRewrite_own_config (W W' : World) (query sc : value) :
  truthy (own sc "config") = true →
  queryRewrite W query sc = queryRewrite W' query sc.
Proof.
  intros Hconfig. pose proof (truthy_own_not_nullish _ _ Hconfig) as Hsc.
  rewrite (queryRewrite_in_force W query sc sc Hsc (permissionsOf_own W sc _ Hconfig) Hsc).
  by rewrite (queryRewrite_in_force W' query sc sc Hsc (permissionsOf_own W' sc _ Hconfig) Hsc).
Qed.

Lemma queryRewrite_own_config_witness :
  queryRewrite Sample.world (Sample.query ["a"] []) Sample.member_context
  = queryRewrite (Cases.decoded_world VNull) (Sample.query ["a"] []) Sample.member_context.
Proof. apply queryRewrite_own_config. evaluate. Defined.

(** X21. A query that names no column, under a context with a config and a
    role other than owner and admin: it is returned exactly when the config
    has a [cubes] entry for the datasource and the columns of those cubes can
    be listed (every [dimensions], [measures] and [segments] of a cube is a
    list or unset); the datasource is checked even though no column is. *)
Theorem queryRewrite_empty_query (W : World) (query sc : value) :
  let accessDatasource := accessDatasourceOf (own sc "config") (own sc "dataSourceId") in
  truthy (own sc "config") = true →
  ¬ elevated (own sc "role") →
  getColumnsArray query = Normal [] →
  queryRewrite W query sc = Normal query
  ↔ truthy accessDatasource = true
    ∧ ∃ accessNames, accessNamesOf accessDatasource = Normal accessNames.
Proof.
  intros accessDatasource Hconfig Hrole Hquery.
  pose proof (truthy_own_not_nullish _ _ Hconfig) as Hsc.
  rewrite (queryRewrite_in_force W query sc sc Hsc (permissionsOf_own W sc _ Hconfig) Hsc).
  cbv zeta. rewrite (includes_not_elevated _ Hrole), Hconfig. fold accessDatasource.
  rewrite Hquery. cbn [negb orb mbind completion_bind].
  destruct (truthy accessDatasource); cbn [negb].
  - destruct (accessNamesOf accessDatasource) as [accessNames|e];
      cbn [mbind completion_bind forEach].
    + split; eauto.
    + split; [done |]. by intros [_ [? ?]].
  - split; [done |]. by intros [? _].
Qed.

Lemma queryRewrite_empty_query_witness :
  queryRewrite Sample.world (Sample.query [] []) Sample.member_context
  = Normal (Sample.query [] []).
Proof.
  apply (queryRewrite_empty_query Sample.world (Sample.query [] []) Sample.member_context);
    [evaluate | | evaluate |].
  - replace (own _ "role") with (VStr "member") by evaluate. by intros [?|?].
  - split; [evaluate |]. exists [VStr "a"; VStr "b"]. evaluate.
Defined.

(** ** Urls, application ids, the SQL gate and the RPC handler *)

(** X22. [addHttpPrefix] returns a host string unchanged or with [http://]
    put before it; what it returns always starts with [http://] or
    [https://], and applying it again changes nothing: a prefix is never
    added twice. *)
Theorem addHttpPrefix_idempotent (h : string) :
  ∃ prefixed,
    addHttpPrefix (VStr h) = Normal (VStr prefixed)
    ∧ (prefixed = h ∨ prefixed = "http://" +:+ h)
    ∧ (startsWith prefixed "http://" = true ∨ startsWith prefixed "https://" = true)
    ∧ addHttpPrefix (VStr prefixed) = Normal (VStr prefixed).
Proof.
  unfold addHttpPrefix.
  destruct (startsWith h "http://") eqn:Hhttp; cbn [negb andb].
  - exists h. rewrite Hhttp. cbn [negb andb]. auto.
  - destruct (startsWith h "https://") eqn:Hhttps; cbn [negb andb].
    + exists h. rewrite Hhttp, Hhttps. cbn [negb andb]. auto.
    + exists ("http://" +:+ h).
      assert (Hprefixed : startsWith ("http://" +:+ h) "http://" = true)
        by (apply startsWith_app; eauto).
      rewrite Hprefixed. cbn [negb andb]. auto.
Qed.

(** X23. The application id and the orchestrator id of a context are the
    same string, [CUBEJS_APP_] followed by the data source version; for
    versions that are strings, two contexts share the id exactly when they
    share the version (and so share the pre-aggregations schema); every
    context without a version, an error context among them, has the id
    [CUBEJS_APP_undefined]. *)
Theorem contextToAppId_versions (sc sc' : value) :
  contextToOrchestratorId sc = contextToAppId sc
  ∧ (∀ v v', own sc "dataSourceVersion" = VStr v → own sc' "dataSourceVersion" = VStr v' →
       (contextToAppId sc = contextToAppId sc' ↔ v = v')
       ∧ (preAggregationsSchema sc = preAggregationsSchema sc' ↔ v = v'))
  ∧ (own sc "dataSourceVersion" = VUndef → contextToAppId sc = VStr "CUBEJS_APP_undefined").
Proof.
  split; [reflexivity |]. split.
  - intros v v' Hv Hv'. unfold contextToAppId, preAggregationsSchema.
    rewrite Hv, Hv'. cbn [toString]. split; split; try (by intros ->).
    all: intros [= Hsame]; exact Hsame.
  - intros Hnone. unfold contextToAppId. by rewrite Hnone.
Qed.

Lemma contextToAppId_versions_witness :
  (contextToAppId (Sample.obj [("dataSourceVersion", VStr "v1")])
   = contextToAppId (Sample.obj [("dataSourceVersion", VStr "v2")]) ↔ "v1" = "v2")
  ∧ contextToAppId (VObj {[ "error" := VStr "Provide dataSourceId" ]})
    = VStr "CUBEJS_APP_undefined".
Proof.
  destruct (contextToAppId_versions (Sample.obj [("dataSourceVersion", VStr "v1")])
              (Sample.obj [("dataSourceVersion", VStr "v2")])) as (_ & Hstrings & _).
  destruct (contextToAppId_versions (VObj {[ "error" := VStr "Provide dataSourceId" ]}) VUndef)
    as (_ & _ & Hnone).
  split.
  - apply (Hstrings "v1" "v2"); evaluate.
  - apply Hnone. evaluate.
Defined.

(** X24. [checkSqlAuth] refuses a user the store has no credentials for with
    "Incorrect user name or password"; otherwise it returns the password
    and a context that is the built one with [userId] set to the [user_id]
    of the credentials, whatever [userId] the builder gave.  If the built
    context holds no config, the permissions in force for the queries of that
    user are those the store returns for this [user_id]. *)
Theorem checkSqlAuth_context (W : World) (findSqlCredentials : value → completion value)
    (req user credentials : value) :
  let built := spread_props (buildSecurityContext W (own credentials "datasource")) in
  findSqlCredentials user = Normal credentials →
  (truthy credentials = false →
   checkSqlAuth W findSqlCredentials req user
   = Throw (VErr "Error" "Incorrect user name or password"))
  ∧ (truthy credentials = true →
     ∃ context : gmap string value,
       checkSqlAuth W findSqlCredentials req user
       = Normal (VObj (<[ "securityContext" := VObj context ]>
                         {[ "password" := own credentials "password" ]}))
       ∧ context !! "userId" = Some (own credentials "user_id")
       ∧ (∀ key, key ≠ "userId" → context !! key = built !! key)
       ∧ (truthy (field built "config") = false →
          permissionsOf W (VObj context) (own (VObj context) "userId")
          = getPermissions W (own credentials "user_id"))).
Proof.
  intros built Hfind. unfold checkSqlAuth. rewrite Hfind. cbn [mbind completion_bind].
  split.
  - by intros ->.
  - intros ->. cbn [negb]. fold built. eexists. split; [reflexivity |].
    split; [by rewrite lookup_insert_eq |]. split.
    + intros key Hkey. by rewrite lookup_insert_ne.
    + intros Hconfig. unfold permissionsOf. cbn [own].
      rewrite lookup_insert_ne by done. fold (field built "config"). rewrite Hconfig.
      by rewrite lookup_insert_eq.
Qed.

Lemma checkSqlAuth_context_witness :
  checkSqlAuth Sample.world Cases.sql_store VUndef (VStr "mallory")
  = Throw (VErr "Error" "Incorrect user name or password")
  ∧ ∃ context : gmap string value,
      checkSqlAuth Sample.world Cases.sql_store VUndef (VStr "alice")
      = Normal (VObj (<[ "securityContext" := VObj context ]> {[ "password" := VStr "pw" ]}))
      ∧ context !! "userId" = Some (VStr "u1")
      ∧ permissionsOf Sample.world (VObj context) (own (VObj context) "userId")
        = Normal Sample.restricted.
Proof.
  split.
  - apply (proj1 (checkSqlAuth_context Sample.world Cases.sql_store VUndef (VStr "mallory")
                    VNull ltac:(evaluate))). evaluate.
  - destruct (proj2 (checkSqlAuth_context Sample.world Cases.sql_store VUndef (VStr "alice")
                       (Sample.obj [("password", VStr "pw"); ("user_id", VStr "u1");
                                    ("datasource", Sample.obj [("id", VStr "ds1")])])
                       ltac:(evaluate)) ltac:(evaluate))
      as (context & Hrun & Huser & _ & Hforce).
    exists context. split; [| split].
    + etransitivity; [exact Hrun |]. evaluate.
    + rewrite Huser. evaluate.
    + rewrite Hforce; evaluate.
Defined.

(** X25. The handler [fetchTables] wraps whatever the query engine answers:
    a result comes back as the object of the single field [schema], a
    failure as what [apiError] makes of it, so the handler raises only if
    [apiError] itself does.  A missing session, input or headers is no
    failure of its own: the engine is then asked with [undefined] in their
    place. *)
Theorem fetchTables_envelope (A : Api) (session input headers : value) :
  let answer :=
    getSchemaTables A (own (or_else input (VObj ∅)) "datasource_id")
      (own session "x-hasura-user-id") (own headers "authorization") in
  (∀ result, answer = Normal result →
     fetchTables A session input headers = Normal (VObj {[ "schema" := result ]}))
  ∧ (∀ err, answer = Throw err → fetchTables A session input headers = apiError A err)
  ∧ ((∀ err, ∃ envelope, apiError A err = Normal envelope) →
     ∃ response, fetchTables A session input headers = Normal response)
  ∧ fetchTables A VUndef VUndef VUndef
    = match getSchemaTables A VUndef VUndef VUndef with
      | Normal result => Normal (VObj {[ "schema" := result ]})
      | Throw err => apiError A err
      end.
Proof.
  intros answer. unfold fetchTables. fold answer. repeat split.
  - by intros result ->.
  - by intros err ->.
  - intros Htotal. destruct answer as [result|err]; [eauto | apply Htotal].
Qed.

Lemma fetchTables_envelope_witness :
  fetchTables Cases.api VUndef (Sample.obj [("datasource_id", VStr "ds1")]) VUndef
  = Normal (VObj {[ "schema" := Sample.obj [("public", VArr [])] ]})
  ∧ fetchTables Cases.api VUndef VUndef VUndef
    = Normal (Sample.obj [("error", VBool true);
                          ("message", VStr "Request failed with status code 403")]).
Proof.
  split.
  - apply (proj1 (fetchTables_envelope Cases.api VUndef
                    (Sample.obj [("datasource_id", VStr "ds1")]) VUndef)). evaluate.
  - etransitivity.
    + apply (proj1 (proj2 (fetchTables_envelope Cases.api VUndef VUndef VUndef))
               (VErr "Error" "Request failed with status code 403")). evaluate.
    + evaluate.
Defined.
